(** * Guestbook in Go with PostgreSQL: repository and HTTP handlers

    A shallow embedding of the guestbook program: the entry repository
    (entryrepo.go), the form handler (formhandler.go) and the list handler
    (listhandler.go), together with the slice of the Go runtime and of the
    libraries (strings, strconv, math, net/http, database/sql) that these
    three files call.

    Conventions.
    - Go's [int] is the 64-bit two's complement integer of the usual
      targets, carried as a [Z] with the wrap-around written out.
    - A Go [string] is a sequence of bytes, carried as a [string].
    - A Go [error] value is either [nil] ([None]) or an error ([Some e]);
      a function returning [(T, error)] returns a pair, as in Go.
    - A slice is either [nil] or a backing sequence.
    - The database handle is an interface ([SqlDB]); the state behind it is
      threaded explicitly through every call.
    - An allocation that the runtime's own range check lets through never
      fails: the machine does not run out of memory. *)

From Stdlib Require Import ZArith List String Ascii Bool Lia.
From Stdlib Require Import Sorting.Sorted Sorting.Permutation.
From Stdlib Require Import Floats.SpecFloat DecimalString.
From stdpp Require Import gmap strings sorting.
Import ListNotations.
Local Open Scope Z_scope.

(** ** Go's [int] *)

Module GoInt.

Definition minInt : Z := - 2 ^ 63.
Definition maxInt : Z := 2 ^ 63 - 1.

(** Reduction of a mathematical integer to the 64-bit signed range. *)
Definition wrap (z : Z) : Z := (z + 2 ^ 63) mod 2 ^ 64 - 2 ^ 63.

Definition add (x y : Z) : Z := wrap (x + y).
Definition sub (x y : Z) : Z := wrap (x - y).
Definition mul (x y : Z) : Z := wrap (x * y).

(** Integer division truncates toward zero. *)
Definition div (x y : Z) : Z := wrap (Z.quot x y).

End GoInt.

(** ** Slices *)

Inductive slice (A : Type) : Type :=
| nil_slice
| slice_of (backing : list A).

Arguments nil_slice {A}.
Arguments slice_of {A} backing.

Definition elems {A : Type} (s : slice A) : list A :=
  match s with
  | nil_slice => []
  | slice_of l => l
  end.

Definition len {A : Type} (s : slice A) : Z := Z.of_nat (length (elems s)).

(** [append(s, x)]: the result is never [nil]. *)
Definition append {A : Type} (s : slice A) (x : A) : slice A :=
  slice_of (elems s ++ [x]).

(** The largest allocation the runtime accepts on 64-bit targets, in bytes. *)
Definition maxAlloc : Z := 2 ^ 48.

(** [make([]T, 0, n)] for elements of the given size in bytes: an empty
    slice that is not [nil]. The runtime's [makeslice] panics with
    [cap out of range] ([None]) when the capacity is negative or when the
    capacity times the element size exceeds [maxAlloc]. *)
Definition make_empty {A : Type} (elemsize cap : Z) : option (slice A) :=
  if (cap <? 0) || (maxAlloc <? elemsize * cap) then None else Some (slice_of []).

(** ** Errors *)

(** An error value, as far as this program looks at it, is the text its
    [Error()] method returns. *)
Record error : Type := New { Error : string }.

(** ** float64 and the two operations the list handler applies to it

    Values are IEEE 754 binary64, in the representation of [SpecFloat]:
    53 bits of precision, exponent bound 1024, rounding to nearest even. *)

Definition float64 : Type := spec_float.

(** The conversion [float64(n)] of an [int]. *)
Definition float64_of_int (n : Z) : float64 := binary_normalize 53 1024 n 0 false.

(** [math.Ceil]: the least integer value not below [x]; zeros, infinities
    and NaN are returned as they are. *)
Definition math_Ceil (x : float64) : float64 :=
  match x with
  | S754_finite s m e =>
      if 0 <=? e then x
      else
        let q := Z.pos m / 2 ^ (- e) in
        let c := if s then - q
                 else if Z.pos m mod 2 ^ (- e) =? 0 then q else q + 1 in
        binary_normalize 53 1024 c 0 s
  | _ => x
  end.

(** The conversion [int(x)]: the fraction is discarded; a value outside the
    range of [int] (or NaN) gives the amd64 result, [minInt]. *)
Definition int_of_float64 (x : float64) : Z :=
  match x with
  | S754_zero _ => 0
  | S754_finite s m e =>
      let a := if 0 <=? e then Z.pos m * 2 ^ e else Z.pos m / 2 ^ (- e) in
      let z := if s then - a else a in
      if (GoInt.minInt <=? z) && (z <=? GoInt.maxInt) then z else GoInt.minInt
  | _ => GoInt.minInt
  end.

(** ** strings.TrimSpace

    Leading and trailing white space, as defined by Unicode, is removed.
    The string is UTF-8; a white-space rune is recognised by its encoding. *)

(** The code points with the White_Space property. *)
Definition White_Space : list Z :=
  [9; 10; 11; 12; 13; 32; 133; 160; 5760;
   8192; 8193; 8194; 8195; 8196; 8197; 8198; 8199; 8200; 8201; 8202;
   8232; 8233; 8239; 8287; 12288].

Definition byte (z : Z) : ascii := ascii_of_N (Z.to_N z).

(** The UTF-8 encoding of a code point of the basic multilingual plane. *)
Definition EncodeRune (r : Z) : list ascii :=
  if r <? 128 then [byte r]
  else if r <? 2048 then
    [byte (Z.lor 192 (Z.shiftr r 6)); byte (Z.lor 128 (Z.land r 63))]
  else
    [byte (Z.lor 224 (Z.shiftr r 12));
     byte (Z.lor 128 (Z.land (Z.shiftr r 6) 63));
     byte (Z.lor 128 (Z.land r 63))].

Fixpoint strip_prefix (p s : list ascii) : option (list ascii) :=
  match p, s with
  | [], _ => Some s
  | a :: p', b :: s' => if Ascii.eqb a b then strip_prefix p' s' else None
  | _ :: _, [] => None
  end.

(** What is left of [s] after one leading rune out of [encodings]. *)
Fixpoint strip_one (encodings : list (list ascii)) (s : list ascii)
  : option (list ascii) :=
  match encodings with
  | [] => None
  | p :: rest =>
      match strip_prefix p s with
      | Some s' => Some s'
      | None => strip_one rest s
      end
  end.

Fixpoint strip_all (fuel : nat) (encodings : list (list ascii)) (s : list ascii)
  : list ascii :=
  match fuel with
  | O => s
  | S fuel' =>
      match strip_one encodings s with
      | Some s' => strip_all fuel' encodings s'
      | None => s
      end
  end.

Definition TrimLeftSpace (s : list ascii) : list ascii :=
  strip_all (length s) (map EncodeRune White_Space) s.

(** The last rune of a string is matched on the reversed bytes. *)
Definition TrimRightSpace (s : list ascii) : list ascii :=
  rev (strip_all (length s) (map (fun r => rev (EncodeRune r)) White_Space) (rev s)).

Definition TrimSpace (s : string) : string :=
  string_of_list_ascii (TrimRightSpace (TrimLeftSpace (list_ascii_of_string s))).

(** The white space of the ASCII range (the table [asciiSpace] of package
    strings). *)
Definition asciiSpace (c : ascii) : bool :=
  let n := Z.of_N (N_of_ascii c) in
  ((9 <=? n) && (n <=? 13)) || (n =? 32).

(** ** strconv *)

Definition Itoa (n : Z) : string := NilZero.string_of_int (Z.to_int n).

Definition ErrSyntax : error := New "invalid syntax".
Definition ErrRange : error := New "value out of range".

Inductive uint_parse : Type :=
| UintOk (n : Z)
| UintSyntax
| UintRange.

(** The digit loop of [ParseUint] in base 10 at 64 bits: it stops at the
    first byte that is no digit, or at the first overflow. *)
Fixpoint ParseUint_loop (cs : list ascii) (n : Z) : uint_parse :=
  match cs with
  | [] => UintOk n
  | c :: cs' =>
      let d := Z.of_N (N_of_ascii c) - 48 in
      if (d <? 0) || (9 <? d) then UintSyntax
      else if (2 ^ 64 - 1) / 10 + 1 <=? n then UintRange
      else
        let n1 := n * 10 + d in
        if 2 ^ 64 - 1 <? n1 then UintRange else ParseUint_loop cs' n1
  end.

Section Strconv.

(** [strconv.Quote] renders the offending text inside error messages. It
    consults the Unicode tables of printable characters, which are no part
    of this development: it is a parameter. *)
Variable Quote : string -> string.

Definition NumError (Func Num : string) (Err : error) : error :=
  New ("strconv." +:+ Func +:+ ": parsing " +:+ Quote Num +:+ ": " +:+ Error Err).

(** [strconv.Atoi]: an optional sign, then decimal digits, within [int]. *)
Definition Atoi (s : string) : Z * option error :=
  let syntaxError := (0, Some (NumError "Atoi" s ErrSyntax)) in
  match list_ascii_of_string s with
  | [] => syntaxError
  | c0 :: rest =>
      let neg := Ascii.eqb c0 "-" in
      let digits := if neg || Ascii.eqb c0 "+" then rest else c0 :: rest in
      match digits with
      | [] => syntaxError
      | _ =>
          match ParseUint_loop digits 0 with
          | UintSyntax => syntaxError
          | UintRange =>
              (if neg then GoInt.minInt else GoInt.maxInt,
               Some (NumError "Atoi" s ErrRange))
          | UintOk un =>
              if neg then
                if 2 ^ 63 <? un
                then (GoInt.minInt, Some (NumError "Atoi" s ErrRange))
                else (- un, None)
              else
                if 2 ^ 63 <=? un
                then (GoInt.maxInt, Some (NumError "Atoi" s ErrRange))
                else (un, None)
          end
      end
  end.

End Strconv.

(** ** net/http: requests and response writers *)

Definition StatusOK : Z := 200.
Definition StatusFound : Z := 302.
Definition StatusBadRequest : Z := 400.
Definition StatusInternalServerError : Z := 500.

Definition StatusText (code : Z) : string :=
  if code =? 200 then "OK"
  else if code =? 302 then "Found"
  else if code =? 400 then "Bad Request"
  else if code =? 500 then "Internal Server Error"
  else "".

(** A request after form parsing: [Form] holds the body parameters and the
    URL query parameters, [PostForm] the body parameters only. *)
Record Request : Type := {
  Method : string;
  Form : gmap string (list string);
  PostForm : gmap string (list string)
}.

(** The first value of the named component, or the empty string. *)
Definition FormValue (r : Request) (key : string) : string :=
  match Form r !! key with
  | Some (v :: _) => v
  | _ => ""
  end.

Definition PostFormValue (r : Request) (key : string) : string :=
  match PostForm r !! key with
  | Some (v :: _) => v
  | _ => ""
  end.

(** What has gone out to the client: the status line, the header map as it
    was when the status was written, and the body so far. *)
Record Response : Type := {
  StatusCode : Z;
  RespHeader : gmap string (list string);
  Body : string
}.

(** A response writer: the header map the handler edits, and the response
    once its status has been written. *)
Record ResponseWriter : Type := {
  Header : gmap string (list string);
  written : option Response
}.

Definition NewWriter : ResponseWriter := {| Header := ∅; written := None |}.

Definition Header_Set (key value : string) (w : ResponseWriter) : ResponseWriter :=
  {| Header := <[key := [value]]> (Header w); written := written w |}.

Definition Header_Del (key : string) (w : ResponseWriter) : ResponseWriter :=
  {| Header := delete key (Header w); written := written w |}.

(** A second [WriteHeader] is ignored. *)
Definition WriteHeader (code : Z) (w : ResponseWriter) : ResponseWriter :=
  match written w with
  | Some _ => w
  | None =>
      {| Header := Header w;
         written := Some {| StatusCode := code; RespHeader := Header w; Body := "" |} |}
  end.

(** [Write] sends status 200 first when no status has been written yet. *)
Definition Write (w : ResponseWriter) (data : string) : ResponseWriter :=
  let w' := WriteHeader StatusOK w in
  match written w' with
  | Some resp =>
      {| Header := Header w';
         written := Some {| StatusCode := StatusCode resp;
                            RespHeader := RespHeader resp;
                            Body := Body resp +:+ data |} |}
  | None => w'
  end.

Definition newline : string := String "010" EmptyString.
Definition dquote : string := String "034" EmptyString.

(** [http.Error] *)
Definition http_Error (w : ResponseWriter) (msg : string) (code : Z) : ResponseWriter :=
  let w := Header_Del "Content-Length" w in
  let w := Header_Set "Content-Type" "text/plain; charset=utf-8" w in
  let w := Header_Set "X-Content-Type-Options" "nosniff" w in
  let w := WriteHeader code w in
  Write w (msg +:+ newline).

(** [http.Redirect] to a rooted and clean path without query, which the
    function's clean-up and escaping leave as it is. *)
Definition http_Redirect (w : ResponseWriter) (r : Request) (url : string) (code : Z)
  : ResponseWriter :=
  let hadCT := bool_decide (is_Some (Header w !! "Content-Type")) in
  let w := Header_Set "Location" url w in
  let w := if negb hadCT && (String.eqb (Method r) "GET" || String.eqb (Method r) "HEAD")
           then Header_Set "Content-Type" "text/html; charset=utf-8" w else w in
  let w := WriteHeader code w in
  if negb hadCT && String.eqb (Method r) "GET"
  then Write w ("<a href=" +:+ dquote +:+ url +:+ dquote +:+ ">"
                +:+ StatusText code +:+ "</a>." +:+ newline +:+ newline)
  else w.

(** How a handler ends: it returns, or it panics (the server then drops
    the connection). *)
Inductive completion : Type :=
| Returned
| Panicked (reason : string).

(** What the client receives once the handler has returned: when the
    handler has written nothing, the server sends status 200 and an empty
    body. *)
Definition finishRequest (w : ResponseWriter) : Response :=
  match written w with
  | Some resp => resp
  | None => {| StatusCode := StatusOK; RespHeader := Header w; Body := "" |}
  end.

(** The writer has sent this status and this body. *)
Definition responds (w : ResponseWriter) (code : Z) (body : string) : Prop :=
  exists resp, written w = Some resp /\ StatusCode resp = code /\ Body resp = body.

(** ** The entry record (entry.go) *)

Record Entry : Type := {
  ID : Z;
  Name : string;
  Email : string;
  Message : string;
  Posted : Z   (* milliseconds on the time line *)
}.

(** ** database/sql: the handle the repository talks to *)

(** The three statements of entryrepo.go, with their arguments:
    - insert into entry (name, email, message) values ($1, $2, $3);
    - select count of all rows from entry;
    - select id, name, email, message, posted from entry
      order by posted desc limit $1 offset $2. *)
Inductive ExecStmt : Type := InsertEntry (name email message : string).
Inductive RowStmt : Type := SelectCount.
Inductive RowsStmt : Type := SelectEntries (limit offset : Z).

(** A [*sql.Row]: the deferred error of the query, and what [Scan] into one
    [int] gives. *)
Record Row : Type := {
  Row_Err : option error;
  Row_Scan : Z + error
}.

(** A [*sql.Rows]: for each row that [Next] reaches, what [Scan] into the
    five fields of an entry gives; and the error that ended the iteration. *)
Record Rows : Type := {
  Rows_Scan : list (Entry + error);
  Rows_Err : option error
}.

Class SqlDB (DB : Type) : Type := {
  Exec : DB -> ExecStmt -> DB * option error;
  QueryRow : DB -> RowStmt -> DB * Row;
  Query : DB -> RowsStmt -> DB * (Rows + error)
}.

(** ** EntryRepo (entryrepo.go) *)

Definition MaxEntriesPerPage : Z := 10.

Module EntryRepo.
Section Repo.
Context {DB : Type} `{SqlDB DB}.

Definition AddEntry (db : DB) (name email message : string) : DB * option error :=
  let '(db, err) := Exec db (InsertEntry name email message) in
  (db, err).

Definition CountEntries (db : DB) : DB * (Z * option error) :=
  let '(db, row) := QueryRow db SelectCount in
  match Row_Err row with
  | Some err => (db, (0, Some err))
  | None =>
      match Row_Scan row with
      | inr err => (db, (0, Some err))
      | inl count => (db, (count, None))
      end
  end.

(** [for rows.Next() { ... }] *)
Fixpoint ListEntries_loop (rows : list (Entry + error)) (entries : slice Entry)
  : slice Entry * option error :=
  match rows with
  | [] => (entries, None)
  | inr err :: _ => (nil_slice, Some err)
  | inl entry :: rows' => ListEntries_loop rows' (append entries entry)
  end.

Definition ListEntries_offset (page : Z) : Z :=
  GoInt.mul (GoInt.sub page 1) MaxEntriesPerPage.

Definition ListEntries (db : DB) (page : Z) : DB * (slice Entry * option error) :=
  let entries : slice Entry := nil_slice in
  match Query db (SelectEntries MaxEntriesPerPage (ListEntries_offset page)) with
  | (db, inr err) => (db, (nil_slice, Some err))
  | (db, inl rows) => (db, ListEntries_loop (Rows_Scan rows) entries)
  end.

End Repo.
End EntryRepo.

(** ** FormHandler (formhandler.go) *)

Module FormHandler.
Section Handler.
Context {DB : Type} `{SqlDB DB}.

Definition ServeHTTP (db : DB) (w : ResponseWriter) (r : Request)
  : DB * ResponseWriter :=
  let name := TrimSpace (PostFormValue r "name") in
  let email := TrimSpace (PostFormValue r "email") in
  let message := TrimSpace (PostFormValue r "message") in
  if String.eqb name "" || String.eqb email "" || String.eqb message "" then
    (db, http_Error w "name, email and message are required" StatusBadRequest)
  else
    let '(db, err) := EntryRepo.AddEntry db name email message in
    match err with
    | Some err =>
        (db, http_Error w ("Error creating entry: " +:+ Error err)
               StatusInternalServerError)
    | None => (db, http_Redirect w r "/" StatusFound)
    end.

End Handler.
End FormHandler.

(** ** ListHandler (listhandler.go) *)

(** The data handed to the template: the four keys of the map. *)
Record TemplateData : Type := {
  data_entries : slice Entry;
  data_totalEntries : Z;
  data_page : Z;
  data_pageNumbers : slice Z
}.

Module ListHandler.

(** [int(math.Ceil(float64(totalEntries / MaxEntriesPerPage)))] *)
Definition pageCount (totalEntries : Z) : Z :=
  int_of_float64
    (math_Ceil (float64_of_int (GoInt.div totalEntries MaxEntriesPerPage))).

(** [for i := 1; i <= pageCount; i++ { pageNumbers = append(pageNumbers, i) }],
    run on fuel. *)
Fixpoint pageNumbers_loop (fuel : nat) (i count : Z) (pageNumbers : slice Z)
  : slice Z :=
  match fuel with
  | O => pageNumbers
  | S fuel' =>
      if i <=? count
      then pageNumbers_loop fuel' (GoInt.add i 1) count (append pageNumbers i)
      else pageNumbers
  end.

(** [make([]int, 0, pageCount)], an [int] taking 8 bytes, and the loop. The
    loop gets one unit of fuel more than it has iterations, so that it
    leaves through its own test. *)
Definition pageNumbers (count : Z) : option (slice Z) :=
  match make_empty 8 count with
  | None => None
  | Some pageNumbers =>
      Some (pageNumbers_loop (S (Z.to_nat count)) 1 count pageNumbers)
  end.

(** Lines 67 to 78: page count, page numbers and the template data;
    [None] when [make] panics. *)
Definition templateData (currentPageEntries : slice Entry) (totalEntries page : Z)
  : option TemplateData :=
  let pageCount := pageCount totalEntries in
  match pageNumbers pageCount with
  | None => None
  | Some pageNumbers =>
      Some {| data_entries := currentPageEntries;
              data_totalEntries := totalEntries;
              data_page := page;
              data_pageNumbers := pageNumbers |}
  end.

Section Handler.
Context {DB : Type} `{SqlDB DB}.

(** What the handler takes from outside this program: the quoting of
    strconv (see above), and the template library with the embedded
    template text. Executing a template writes chunks of output and may
    stop with an error. *)
Variable Quote : string -> string.
Variable Template : Type.
Variable templateText : string.
Variable template_Parse : string -> Template + error.
Variable ExecuteTemplate : Template -> TemplateData -> list string * option error.

(** Lines 52 to 85: load the page, count, render. The log is the list of
    lines given to [log.Print]. *)
Definition serve_page (parsedTemplate : Template) (page : Z)
    (db : DB) (log : list string) (w : ResponseWriter)
  : DB * list string * ResponseWriter * completion :=
  let '(db, (entries, err)) := EntryRepo.ListEntries db page in
  match err with
  | Some err =>
      (db, log ++ [Error err],
       http_Error w ("Error loading entries: " +:+ Error err)
         StatusInternalServerError,
       Returned)
  | None =>
      let currentPageEntries := entries in
      let '(db, (count, err)) := EntryRepo.CountEntries db in
      match err with
      | Some err =>
          (db, log ++ [Error err],
           http_Error w ("Error counting entries: " +:+ Error err)
             StatusInternalServerError,
           Returned)
      | None =>
          let totalEntries := count in
          match templateData currentPageEntries totalEntries page with
          | None =>
              (db, log, w, Panicked "runtime error: makeslice: cap out of range")
          | Some templateData =>
              let '(chunks, err) := ExecuteTemplate parsedTemplate templateData in
              let w := fold_left Write chunks w in
              match err with
              | Some err =>
                  (db, log ++ [Error err],
                   http_Error w ("Error executing template: " +:+ Error err)
                     StatusInternalServerError,
                   Returned)
              | None => (db, log, w, Returned)
              end
          end
      end
  end.

Definition ServeHTTP (db : DB) (log : list string) (w : ResponseWriter) (r : Request)
  : DB * list string * ResponseWriter * completion :=
  match template_Parse templateText with
  | inr err =>
      (db, log ++ [Error err],
       http_Error w ("Error parsing template: " +:+ Error err)
         StatusInternalServerError,
       Returned)
  | inl parsedTemplate =>
      let pageParam := TrimSpace (FormValue r "page") in
      match (if String.eqb pageParam "" then (1, None) else Atoi Quote pageParam) with
      | (_, Some err) =>
          (db, log ++ [Error err],
           http_Error w ("Error parsing page parameter: " +:+ Error err)
             StatusBadRequest,
           Returned)
      | (page, None) =>
          if page <? 1 then
            (db, log,
             http_Error w ("Invalid page number " +:+ Itoa page) StatusBadRequest,
             Returned)
          else serve_page parsedTemplate page db log w
      end
  end.

End Handler.
End ListHandler.

Arguments ListHandler.serve_page {DB H} {Template} ExecuteTemplate
  parsedTemplate page db log w.
Arguments ListHandler.ServeHTTP {DB H} Quote {Template} templateText
  template_Parse ExecuteTemplate db log w r.

(** ** A reference engine for the entry table

    The table of the tutorial's schema: id is an identity column, posted
    defaults to the current timestamp, the other three columns are given by
    the insert. A statement may fail for reasons outside this model
    (constraint violation, lost connection): the engine carries a schedule
    with, for each coming statement, the failure it meets, if any. It also
    keeps the list of the statements it has received. *)

Inductive Stmt : Type :=
| SExec (s : ExecStmt)
| SQueryRow (s : RowStmt)
| SQuery (s : RowsStmt).

Record Pg : Type := {
  table : list Entry;          (* rows, in insertion order *)
  next_id : Z;                 (* identity sequence *)
  now : Z;                     (* current timestamp *)
  faults : list (option error);
  executed : list Stmt
}.

(** Newest first. *)
Definition newer_first (a b : Entry) : Prop := Posted b <= Posted a.

#[export] Instance newer_first_dec : RelDecision newer_first :=
  fun a b => Z_le_dec (Posted b) (Posted a).

(** [ORDER BY posted DESC]. Among rows of equal timestamp PostgreSQL may
    choose any order, and another one at the next query; this engine
    always takes the order its merge sort yields. A result on one query
    holds for any choice as far as it rests on [order_by_posted_desc_sorted]
    and [order_by_posted_desc_perm] alone; results that compare the rows of
    several queries assume distinct timestamps, under which every choice
    gives the same order. *)
Definition order_by_posted_desc (rows : list Entry) : list Entry :=
  merge_sort newer_first rows.

(** Receive a statement: log it and take the next entry of the schedule. *)
Definition pg_receive (pg : Pg) (s : Stmt) : Pg * option error :=
  ({| table := table pg; next_id := next_id pg; now := now pg;
      faults := tl (faults pg); executed := executed pg ++ [s] |},
   hd None (faults pg)).

Definition pg_Exec (pg : Pg) (s : ExecStmt) : Pg * option error :=
  match pg_receive pg (SExec s) with
  | (pg, Some err) => (pg, Some err)
  | (pg, None) =>
      match s with
      | InsertEntry name email message =>
          ({| table := table pg ++
                [{| ID := next_id pg; Name := name; Email := email;
                    Message := message; Posted := now pg |}];
              next_id := next_id pg + 1; now := now pg;
              faults := faults pg; executed := executed pg |},
           None)
      end
  end.

Definition pg_QueryRow (pg : Pg) (s : RowStmt) : Pg * Row :=
  match pg_receive pg (SQueryRow s) with
  | (pg, Some err) => (pg, {| Row_Err := Some err; Row_Scan := inr err |})
  | (pg, None) =>
      match s with
      | SelectCount =>
          (pg, {| Row_Err := None; Row_Scan := inl (Z.of_nat (length (table pg))) |})
      end
  end.

Definition pg_Query (pg : Pg) (s : RowsStmt) : Pg * (Rows + error) :=
  match pg_receive pg (SQuery s) with
  | (pg, Some err) => (pg, inr err)
  | (pg, None) =>
      match s with
      | SelectEntries limit offset =>
          if limit <? 0 then (pg, inr (New "pq: LIMIT must not be negative"))
          else if offset <? 0 then (pg, inr (New "pq: OFFSET must not be negative"))
          else
            (pg, inl {| Rows_Scan :=
                          map inl (firstn (Z.to_nat limit)
                                     (skipn (Z.to_nat offset)
                                        (order_by_posted_desc (table pg))));
                        Rows_Err := None |})
      end
  end.

#[export] Instance Pg_SqlDB : SqlDB Pg :=
  {| Exec := pg_Exec; QueryRow := pg_QueryRow; Query := pg_Query |}.

(** ** A scripted handle

    A handle that answers each call with the next reply of a script; it
    serves to exercise the failures a driver can report in the middle of a
    result (a failing scan, an interrupted iteration). *)

Inductive Reply : Type :=
| ReplyExec (err : option error)
| ReplyRow (row : Row)
| ReplyRows (rows : Rows + error).

Definition ErrConnDone : error := New "sql: connection is already closed".

Definition script_Exec (sc : list Reply) (s : ExecStmt) : list Reply * option error :=
  match sc with
  | ReplyExec err :: sc' => (sc', err)
  | _ => (tl sc, Some ErrConnDone)
  end.

Definition script_QueryRow (sc : list Reply) (s : RowStmt) : list Reply * Row :=
  match sc with
  | ReplyRow row :: sc' => (sc', row)
  | _ => (tl sc, {| Row_Err := Some ErrConnDone; Row_Scan := inr ErrConnDone |})
  end.

Definition script_Query (sc : list Reply) (s : RowsStmt) : list Reply * (Rows + error) :=
  match sc with
  | ReplyRows rows :: sc' => (sc', rows)
  | _ => (tl sc, inr ErrConnDone)
  end.

#[export] Instance Script_SqlDB : SqlDB (list Reply) :=
  {| Exec := script_Exec; QueryRow := script_QueryRow; Query := script_Query |}.

(** ** Sample data

    A table of twelve entries, requests, and stand-ins for the parameters
    of the list handler, for use in examples. *)

Definition sample_entry (i : nat) : Entry :=
  {| ID := Z.of_nat i; Name := "guest"; Email := "guest@example.org";
     Message := "hello"; Posted := 1000 + Z.of_nat i |}.

Definition sample_pg : Pg :=
  {| table := map sample_entry (seq 1 12); next_id := 13; now := 2000;
     faults := []; executed := [] |}.

(** The same engine about to fail its next statement. *)
Definition failing_pg : Pg :=
  {| table := map sample_entry (seq 1 12); next_id := 13; now := 2000;
     faults := [Some (New "pq: connection refused")]; executed := [] |}.

Definition post_request (name email message : string) : Request :=
  let form : gmap string (list string) :=
    <["name" := [name]]> (<["email" := [email]]> (<["message" := [message]]> ∅)) in
  {| Method := "POST"; Form := form; PostForm := form |}.

Definition get_request (query : gmap string (list string)) : Request :=
  {| Method := "GET"; Form := query; PostForm := ∅ |}.

Definition sample_Quote (s : string) : string := dquote +:+ s +:+ dquote.

(** A template is its text; executing it writes the text, then the page. *)
Definition sample_Parse (text : string) : string + error := inl text.

Definition broken_Parse (text : string) : string + error :=
  inr (New "template: template.gohtml:1: unexpected EOF").

Definition sample_Execute (t : string) (d : TemplateData) : list string * option error :=
  ([t; Itoa (data_page d)], None).

(** An execution that stops with an error after its first chunk, and one
    that stops before any output. *)
Definition ErrExecute : error :=
  New "template: template.gohtml:33:12: executing template.gohtml: error calling eq".

Definition failing_Execute (t : string) (d : TemplateData) : list string * option error :=
  ([t], Some ErrExecute).

(** A template without output. *)
Definition silent_Execute (t : string) (d : TemplateData) : list string * option error :=
  ([], None).

Definition silent_failing_Execute (t : string) (d : TemplateData)
  : list string * option error :=
  ([], Some ErrExecute).

(** The sample engine about to fail its second statement. *)
Definition count_failing_pg : Pg :=
  {| table := map sample_entry (seq 1 12); next_id := 13; now := 2000;
     faults := [None; Some (New "pq: connection reset")]; executed := [] |}.

(** ** Vocabulary for statements about whole runs *)

(** The list handler accepts the request's page parameter as this page: no
    parameter is left after trimming and the page is 1, or Atoi reads the
    parameter as a number of at least 1. *)
Definition accepts_page (Quote : string -> string) (r : Request) (page : Z) : Prop :=
  let pageParam := TrimSpace (FormValue r "page") in
  (pageParam = "" /\ page = 1) \/
  (pageParam <> "" /\ Atoi Quote pageParam = (page, None) /\ 1 <= page).

(** The chunks a template has written, one after the other. *)
Definition joined (chunks : list string) : string :=
  fold_right String.append "" chunks.

(** A text field as the form handler stores it: not empty, and with no
    white space left to trim. *)
Definition trimmed (s : string) : Prop := s <> "" /\ TrimSpace s = s.

Definition well_formed (e : Entry) : Prop :=
  trimmed (Name e) /\ trimmed (Email e) /\ trimmed (Message e).

(** The rows, the id sequence and the clock are the same in both states. *)
Definition same_rows (pg pg' : Pg) : Prop :=
  table pg' = table pg /\ next_id pg' = next_id pg /\ now pg' = now pg.

(** The statements of one run of the list handler: none, the page query,
    or the page query and then the count. *)
Definition reads_at_most_twice (before after : list Stmt) : Prop :=
  after = before \/
  exists offset : Z,
    after = before ++ [SQuery (SelectEntries 10 offset)] \/
    after = before ++ [SQuery (SelectEntries 10 offset); SQueryRow SelectCount].


(** * Properties *)

(** ** Go's [int] *)

Lemma wrap_small (z : Z) : GoInt.minInt <= z <= GoInt.maxInt -> GoInt.wrap z = z.
Proof.
  unfold GoInt.wrap, GoInt.minInt, GoInt.maxInt. intros Hz.
  rewrite Z.mod_small by lia. lia.
Qed.

(** ** The binary64 conversion of integers below [2 ^ 53] *)

Lemma digits2_pos_bounds (p : positive) :
  2 ^ (Z.pos (digits2_pos p) - 1) <= Z.pos p < 2 ^ Z.pos (digits2_pos p).
Proof.
  induction p as [p IH | p IH |]; cbn [digits2_pos].
  - rewrite Pos2Z.inj_succ, (Pos2Z.inj_xI p).
    replace (Z.succ (Z.pos (digits2_pos p)) - 1)
      with (Z.succ (Z.pos (digits2_pos p) - 1)) by lia.
    rewrite !Z.pow_succ_r by lia.
    generalize dependent (2 ^ (Z.pos (digits2_pos p) - 1)).
    generalize dependent (2 ^ Z.pos (digits2_pos p)). intros; lia.
  - rewrite Pos2Z.inj_succ, (Pos2Z.inj_xO p).
    replace (Z.succ (Z.pos (digits2_pos p)) - 1)
      with (Z.succ (Z.pos (digits2_pos p) - 1)) by lia.
    rewrite !Z.pow_succ_r by lia.
    generalize dependent (2 ^ (Z.pos (digits2_pos p) - 1)).
    generalize dependent (2 ^ Z.pos (digits2_pos p)). intros; lia.
  - cbn. lia.
Qed.

Lemma iter_xO_value (p k : positive) :
  Z.pos (Pos.iter xO p k) = Z.pos p * 2 ^ Z.pos k.
Proof.
  induction k as [| k IH] using Pos.peano_ind.
  - cbn [Pos.iter]. rewrite (Pos2Z.inj_xO p). change (2 ^ 1) with 2. lia.
  - rewrite Pos.iter_succ, (Pos2Z.inj_xO (Pos.iter xO p k)), IH,
      Pos2Z.inj_succ, Z.pow_succ_r by lia.
    generalize dependent (2 ^ Z.pos k). intros; lia.
Qed.

Lemma iter_xO_digits (p k : positive) :
  digits2_pos (Pos.iter xO p k) = (digits2_pos p + k)%positive.
Proof.
  induction k as [| k IH] using Pos.peano_ind.
  - cbn [Pos.iter digits2_pos]. lia.
  - rewrite Pos.iter_succ. cbn [digits2_pos]. rewrite IH. lia.
Qed.

(** A mantissa of exactly 53 bits is kept as it is: nothing is shifted out. *)
Lemma binary_round_aux_exact (s : bool) (m : positive) (e : Z) :
  Z.pos (digits2_pos m) = 53 -> -1074 <= e <= 971 ->
  binary_round_aux 53 1024 s (Z.pos m) e loc_Exact = S754_finite s m e.
Proof.
  intros Hd He.
  assert (Hshift : fexp 53 1024 (Z.pos (digits2_pos m) + e) - e = 0).
  { unfold fexp, emin. rewrite Hd. lia. }
  unfold binary_round_aux, shr_fexp, Zdigits2.
  rewrite Hshift.
  cbn [shr shr_record_of_loc shr_m loc_of_shr_record round_nearest_even].
  rewrite Hshift.
  cbn [shr shr_record_of_loc shr_m].
  replace (e <=? 1024 - 53) with true by (symmetry; apply Z.leb_le; lia).
  reflexivity.
Qed.

Lemma float64_of_int_full (p : positive) :
  Z.pos (digits2_pos p) = 53 ->
  float64_of_int (Z.pos p) = S754_finite false p 0.
Proof.
  intros Hd. unfold float64_of_int, binary_normalize, binary_round.
  replace (fexp 53 1024 (Z.pos (digits2_pos p) + 0)) with 0
    by (unfold fexp, emin; lia).
  cbn [shl_align Z.sub Z.opp Z.add].
  apply binary_round_aux_exact; [assumption | lia].
Qed.

Lemma float64_of_int_short (p k : positive) :
  Z.pos (digits2_pos p) + Z.pos k = 53 ->
  float64_of_int (Z.pos p) = S754_finite false (Pos.iter xO p k) (Z.neg k).
Proof.
  intros Hd. unfold float64_of_int, binary_normalize, binary_round.
  replace (fexp 53 1024 (Z.pos (digits2_pos p) + 0)) with (Z.neg k)
    by (unfold fexp, emin; lia).
  cbn [shl_align Z.sub Z.opp Z.add].
  apply binary_round_aux_exact; [| lia].
  rewrite iter_xO_digits. lia.
Qed.

(** Up to [2 ^ 53] the way through [float64] and [math.Ceil] gives the
    integer back. *)
Lemma int_of_Ceil_float64_exact (n : Z) :
  0 <= n <= 2 ^ 53 ->
  int_of_float64 (math_Ceil (float64_of_int n)) = n.
Proof.
  intros Hn.
  destruct (Z.eq_dec n (2 ^ 53)) as [-> | Hne]; [reflexivity |].
  destruct n as [| p | p]; [reflexivity | | lia].
  pose proof (digits2_pos_bounds p) as Hb.
  assert (Hd : Z.pos (digits2_pos p) <= 53).
  { destruct (Z_le_gt_dec (Z.pos (digits2_pos p)) 53) as [Hle | Hgt]; [exact Hle |].
    exfalso.
    assert (2 ^ 53 <= 2 ^ (Z.pos (digits2_pos p) - 1))
      by (apply Z.pow_le_mono_r; lia).
    lia. }
  assert (Hrange : (GoInt.minInt <=? Z.pos p) && (Z.pos p <=? GoInt.maxInt) = true).
  { unfold GoInt.minInt, GoInt.maxInt.
    apply andb_true_intro; split; apply Z.leb_le; lia. }
  destruct (Z.eq_dec (Z.pos (digits2_pos p)) 53) as [Heq | Hlt].
  - rewrite float64_of_int_full by exact Heq.
    cbn [math_Ceil int_of_float64 Z.leb Z.compare].
    rewrite Z.pow_0_r, Z.mul_1_r, Hrange. reflexivity.
  - set (k := Z.to_pos (53 - Z.pos (digits2_pos p))).
    assert (Hk : Z.pos (digits2_pos p) + Z.pos k = 53) by (unfold k; lia).
    rewrite (float64_of_int_short p k Hk).
    cbn [math_Ceil Z.leb Z.compare Z.opp].
    rewrite iter_xO_value, Z.mod_mul, Z.div_mul by lia.
    cbn [Z.eqb].
    rewrite (float64_of_int_short p k Hk
             : binary_normalize 53 1024 (Z.pos p) 0 false = _).
    cbn [int_of_float64 Z.leb Z.compare Z.opp].
    rewrite iter_xO_value, Z.div_mul, Hrange by lia. reflexivity.
Qed.

(** ** The page-number loop *)

Lemma pageNumbers_loop_run (n : nat) :
  forall (fuel : nat) (i count : Z) (l : list Z),
    (n < fuel)%nat -> i + Z.of_nat n = count + 1 ->
    GoInt.minInt <= i -> count < GoInt.maxInt ->
    ListHandler.pageNumbers_loop fuel i count (slice_of l)
    = slice_of (l ++ map (fun k => i + Z.of_nat k) (seq 0 n)).
Proof.
  induction n as [| n IH]; intros fuel i count l Hfuel Hi Hmin Hmax;
    (destruct fuel as [| fuel]; [lia |]); cbn [ListHandler.pageNumbers_loop].
  - replace (i <=? count) with false by (symmetry; apply Z.leb_gt; lia).
    cbn [seq map]. rewrite app_nil_r. reflexivity.
  - replace (i <=? count) with true by (symmetry; apply Z.leb_le; lia).
    unfold GoInt.add. rewrite wrap_small by lia.
    unfold append. cbn [elems].
    rewrite IH by lia.
    f_equal. rewrite <- app_assoc. f_equal.
    cbn [seq map app]. rewrite Z.add_0_r. f_equal.
    rewrite <- seq_shift, map_map.
    apply map_ext. intros k. lia.
Qed.

Lemma make_empty_int (A : Type) (cap : Z) :
  make_empty (A := A) 8 cap
  = if (0 <=? cap) && (cap <=? 2 ^ 45) then Some (slice_of []) else None.
Proof.
  unfold make_empty, maxAlloc.
  destruct (Z.ltb_spec cap 0), (Z.ltb_spec (2 ^ 48) (8 * cap)),
    (Z.leb_spec 0 cap), (Z.leb_spec cap (2 ^ 45)); cbn; try reflexivity; lia.
Qed.

Lemma pageNumbers_ascending (count : Z) :
  0 <= count <= 2 ^ 45 ->
  ListHandler.pageNumbers count
  = Some (slice_of (map Z.of_nat (seq 1 (Z.to_nat count)))).
Proof.
  intros Hc. unfold ListHandler.pageNumbers. rewrite make_empty_int.
  replace ((0 <=? count) && (count <=? 2 ^ 45)) with true
    by (symmetry; apply andb_true_intro; split; apply Z.leb_le; lia).
  rewrite (pageNumbers_loop_run (Z.to_nat count))
    by (unfold GoInt.minInt, GoInt.maxInt; lia).
  cbn [app]. do 2 f_equal.
  rewrite <- seq_shift, map_map.
  apply map_ext. intros k. lia.
Qed.

Lemma pageNumbers_out_of_range (count : Z) :
  count < 0 \/ 2 ^ 45 < count -> ListHandler.pageNumbers count = None.
Proof.
  intros Hc. unfold ListHandler.pageNumbers. rewrite make_empty_int.
  replace ((0 <=? count) && (count <=? 2 ^ 45)) with false; [reflexivity |].
  symmetry. apply andb_false_iff. rewrite !Z.leb_gt. lia.
Qed.

(** ** C1: page count and page numbers *)

(** C1, as stated, fails twice. From 351843720888330 entries on, the page
    count exceeds the largest capacity that [make] accepts for a slice of
    [int], and the handler panics instead of building the page numbers.
    From 90071992547409930 entries on, the quotient by ten is no longer a
    binary64 value and the conversion to float64 rounds it: the quotient
    9007199254740993 becomes 9007199254740992. *)
Lemma page_numbers_fail_on_large_counts :
  (0 <= 351843720888330 /\
   ListHandler.pageCount 351843720888330 = 351843720888330 / 10 /\
   ListHandler.templateData nil_slice 351843720888330 1 = None) /\
  (0 <= 90071992547409930 /\
   ListHandler.pageCount 90071992547409930 = 9007199254740992 /\
   90071992547409930 / 10 = 9007199254740993 /\
   ListHandler.pageCount 90071992547409930 <> 90071992547409930 / 10).
Proof.
  split.
  - split; [lia |]. split; vm_compute; reflexivity.
  - split; [lia |]. split; [reflexivity |]. split; [reflexivity |].
    intros Heq. vm_compute in Heq. discriminate Heq.
Qed.

(** C1 (amended): for every total entry count from 0 up to
    90071992547409929, the list handler computes the page count as the
    floor of total / 10 (the integer division comes before the float
    conversion, and [math.Ceil] never rounds up). For every total from 0 up
    to 351843720888329, the page numbers it hands to the template are
    exactly 1, 2, ..., page count, ascending; from 351843720888330 on,
    [make] panics and no page numbers are built. *)
Theorem ListHandler_pageCount_floor :
  forall (entries : slice Entry) (totalEntries page : Z),
    0 <= totalEntries < 90071992547409930 ->
    ListHandler.pageCount totalEntries = totalEntries / 10 /\
    (totalEntries < 351843720888330 ->
     ListHandler.templateData entries totalEntries page
     = Some {| data_entries := entries;
               data_totalEntries := totalEntries;
               data_page := page;
               data_pageNumbers :=
                 slice_of (map Z.of_nat (seq 1 (Z.to_nat (totalEntries / 10)))) |}) /\
    (351843720888330 <= totalEntries ->
     ListHandler.templateData entries totalEntries page = None).
Proof.
  intros entries totalEntries page Htotal.
  assert (Hq : 0 <= totalEntries / 10 <= 2 ^ 53).
  { split; [apply Z.div_pos; lia |].
    apply Z.lt_succ_r, Z.div_lt_upper_bound; lia. }
  assert (Hcount : ListHandler.pageCount totalEntries = totalEntries / 10).
  { unfold ListHandler.pageCount, GoInt.div, MaxEntriesPerPage.
    rewrite Z.quot_div_nonneg by lia.
    rewrite wrap_small by (unfold GoInt.minInt, GoInt.maxInt; lia).
    apply int_of_Ceil_float64_exact; exact Hq. }
  split; [exact Hcount |].
  unfold ListHandler.templateData. cbv zeta. rewrite Hcount. split.
  - intros Hsmall.
    assert (totalEntries / 10 < 35184372088833)
      by (apply Z.div_lt_upper_bound; lia).
    rewrite pageNumbers_ascending by lia. reflexivity.
  - intros Hlarge.
    assert (35184372088833 <= totalEntries / 10)
      by (apply Z.div_le_lower_bound; lia).
    rewrite pageNumbers_out_of_range by lia. reflexivity.
Qed.

(** Ten entries give one page, and so do eleven; with 351843720888330
    entries there are no page numbers. *)
Lemma ListHandler_pageCount_floor_witness :
  (ListHandler.pageCount 10 = 1 /\
   ListHandler.templateData nil_slice 10 1
   = Some {| data_entries := nil_slice; data_totalEntries := 10; data_page := 1;
             data_pageNumbers := slice_of [1] |}) /\
  (ListHandler.pageCount 11 = 1 /\
   ListHandler.templateData nil_slice 11 1
   = Some {| data_entries := nil_slice; data_totalEntries := 11; data_page := 1;
             data_pageNumbers := slice_of [1] |}) /\
  ListHandler.templateData nil_slice 351843720888330 1 = None.
Proof.
  split; [| split].
  - destruct (ListHandler_pageCount_floor nil_slice 10 1) as (Hcount & Hsmall & _);
      [lia |].
    split; [exact Hcount | apply Hsmall; lia].
  - destruct (ListHandler_pageCount_floor nil_slice 11 1) as (Hcount & Hsmall & _);
      [lia |].
    split; [exact Hcount | apply Hsmall; lia].
  - destruct (ListHandler_pageCount_floor nil_slice 351843720888330 1)
      as (_ & _ & Hlarge); [lia |].
    apply Hlarge. lia.
Defined.

(** ** Response writers *)

Lemma WriteHeader_fresh (w : ResponseWriter) (code : Z) :
  written w = None ->
  written (WriteHeader code w)
  = Some {| StatusCode := code; RespHeader := Header w; Body := "" |}.
Proof. intros Hw. unfold WriteHeader. rewrite Hw. reflexivity. Qed.

Lemma Write_written (w : ResponseWriter) (resp : Response) (data : string) :
  written w = Some resp ->
  written (Write w data)
  = Some {| StatusCode := StatusCode resp; RespHeader := RespHeader resp;
            Body := Body resp +:+ data |}.
Proof. intros Hw. unfold Write, WriteHeader. rewrite Hw. cbn. rewrite Hw. reflexivity. Qed.

Lemma http_Error_written (w : ResponseWriter) (msg : string) (code : Z) :
  written w = None ->
  exists resp, written (http_Error w msg code) = Some resp /\
    StatusCode resp = code /\ Body resp = msg +:+ newline.
Proof.
  intros Hw. unfold http_Error.
  erewrite Write_written by (apply WriteHeader_fresh; exact Hw).
  eexists. split; [reflexivity |]. split; reflexivity.
Qed.

Lemma http_Redirect_written (w : ResponseWriter) (r : Request) (url : string) (code : Z) :
  written w = None ->
  exists resp, written (http_Redirect w r url code) = Some resp /\
    StatusCode resp = code /\ RespHeader resp !! "Location" = Some [url].
Proof.
  intros Hw. unfold http_Redirect.
  set (hadCT := bool_decide _).
  set (w1 := Header_Set "Location" url w).
  set (w2 := if _ : bool then _ else w1).
  assert (Hw2 : written w2 = None /\ Header w2 !! "Location" = Some [url]).
  { unfold w2. destruct (_ && _); unfold w1, Header_Set; cbn [written Header];
      (split; [exact Hw |]).
    - rewrite lookup_insert_ne by discriminate. apply lookup_insert_eq.
    - apply lookup_insert_eq. }
  destruct Hw2 as [Hnone Hloc].
  pose proof (WriteHeader_fresh w2 code Hnone) as Hwh.
  clearbody w2. clear w1.
  destruct (negb hadCT && String.eqb (Method r) "GET").
  - erewrite Write_written by exact Hwh.
    eexists. split; [reflexivity |]. split; [reflexivity | exact Hloc].
  - eexists. split; [exact Hwh |]. split; [reflexivity | exact Hloc].
Qed.

(** ** The form handler *)

(** C2: when one of the three form fields is empty after trimming, the
    form handler answers 400 with the message that all three are required,
    and leaves the database handle as it found it: no statement is issued,
    the entries and their count are what they were. *)
Theorem FormHandler_rejects_blank_field :
  forall (DB : Type) (H : SqlDB DB) (db : DB) (w : ResponseWriter) (r : Request),
    written w = None ->
    TrimSpace (PostFormValue r "name") = "" \/
    TrimSpace (PostFormValue r "email") = "" \/
    TrimSpace (PostFormValue r "message") = "" ->
    FormHandler.ServeHTTP db w r
    = (db, http_Error w "name, email and message are required" StatusBadRequest) /\
    (exists resp,
        written (snd (FormHandler.ServeHTTP db w r)) = Some resp /\
        StatusCode resp = 400 /\
        Body resp = "name, email and message are required" +:+ newline) /\
    fst (FormHandler.ServeHTTP db w r) = db /\
    EntryRepo.CountEntries (fst (FormHandler.ServeHTTP db w r))
    = EntryRepo.CountEntries db.
Proof.
  intros DB H db w r Hw Hblank.
  assert (Hrun : FormHandler.ServeHTTP db w r
                 = (db, http_Error w "name, email and message are required"
                          StatusBadRequest)).
  { unfold FormHandler.ServeHTTP. cbv zeta.
    destruct Hblank as [Hb | [Hb | Hb]]; rewrite Hb; cbn [String.eqb orb];
      rewrite ?orb_true_r; reflexivity. }
  rewrite Hrun. cbn [fst snd].
  split; [reflexivity |]. split; [| split; reflexivity].
  apply http_Error_written. exact Hw.
Qed.

(** A name of blanks only, on the sample table: the engine has received no
    statement and still holds its twelve rows. *)
Lemma FormHandler_rejects_blank_field_witness :
  let r := post_request "   " "ann@example.org" "hello" in
  FormHandler.ServeHTTP sample_pg NewWriter r
  = (sample_pg, http_Error NewWriter "name, email and message are required" 400) /\
  (exists resp,
      written (snd (FormHandler.ServeHTTP sample_pg NewWriter r)) = Some resp /\
      StatusCode resp = 400 /\
      Body resp = "name, email and message are required" +:+ newline) /\
  fst (FormHandler.ServeHTTP sample_pg NewWriter r) = sample_pg /\
  EntryRepo.CountEntries (fst (FormHandler.ServeHTTP sample_pg NewWriter r))
  = EntryRepo.CountEntries sample_pg.
Proof.
  apply (FormHandler_rejects_blank_field Pg Pg_SqlDB sample_pg NewWriter
           (post_request "   " "ann@example.org" "hello")).
  - reflexivity.
  - left. vm_compute. reflexivity.
Defined.

(** C7: a submission whose three fields are non-empty after trimming is
    passed, trimmed, to AddEntry. When AddEntry returns an error the answer
    is 500 with a body that carries the error's message; otherwise it is
    302 with Location set to the root path. *)
Theorem FormHandler_valid_submission :
  forall (DB : Type) (H : SqlDB DB) (db : DB) (w : ResponseWriter) (r : Request),
    written w = None ->
    TrimSpace (PostFormValue r "name") <> "" ->
    TrimSpace (PostFormValue r "email") <> "" ->
    TrimSpace (PostFormValue r "message") <> "" ->
    let added :=
      EntryRepo.AddEntry db
        (TrimSpace (PostFormValue r "name"))
        (TrimSpace (PostFormValue r "email"))
        (TrimSpace (PostFormValue r "message")) in
    fst (FormHandler.ServeHTTP db w r) = fst added /\
    exists resp,
      written (snd (FormHandler.ServeHTTP db w r)) = Some resp /\
      match snd added with
      | Some err =>
          StatusCode resp = 500 /\
          Body resp = ("Error creating entry: " +:+ Error err) +:+ newline
      | None =>
          StatusCode resp = 302 /\ RespHeader resp !! "Location" = Some ["/"]
      end.
Proof.
  intros DB H db w r Hw Hname Hemail Hmessage added.
  unfold FormHandler.ServeHTTP. cbv zeta.
  apply String.eqb_neq in Hname, Hemail, Hmessage.
  rewrite Hname, Hemail, Hmessage. cbn [orb].
  fold added. destruct added as [db' [err |]]; cbn [fst snd].
  - split; [reflexivity |].
    destruct (http_Error_written w ("Error creating entry: " +:+ Error err)
                StatusInternalServerError Hw) as (resp & Hresp & Hcode & Hbody).
    exists resp. split; [exact Hresp |]. split; [exact Hcode | exact Hbody].
  - split; [reflexivity |].
    apply http_Redirect_written. exact Hw.
Qed.

(** A trimmed submission on the sample table is stored and redirected; on
    an engine that refuses the statement it is answered with 500. *)
Lemma FormHandler_valid_submission_witness :
  (let r := post_request " Ann " "ann@example.org" "hi" in
   fst (FormHandler.ServeHTTP sample_pg NewWriter r)
   = fst (EntryRepo.AddEntry sample_pg "Ann" "ann@example.org" "hi") /\
   exists resp,
     written (snd (FormHandler.ServeHTTP sample_pg NewWriter r)) = Some resp /\
     StatusCode resp = 302 /\ RespHeader resp !! "Location" = Some ["/"]) /\
  (let r := post_request " Ann " "ann@example.org" "hi" in
   fst (FormHandler.ServeHTTP failing_pg NewWriter r)
   = fst (EntryRepo.AddEntry failing_pg "Ann" "ann@example.org" "hi") /\
   exists resp,
     written (snd (FormHandler.ServeHTTP failing_pg NewWriter r)) = Some resp /\
     StatusCode resp = 500 /\
     Body resp = "Error creating entry: pq: connection refused" +:+ newline).
Proof.
  split.
  - apply (FormHandler_valid_submission Pg Pg_SqlDB sample_pg NewWriter
             (post_request " Ann " "ann@example.org" "hi"));
      [reflexivity | vm_compute; discriminate ..].
  - apply (FormHandler_valid_submission Pg Pg_SqlDB failing_pg NewWriter
             (post_request " Ann " "ann@example.org" "hi"));
      [reflexivity | vm_compute; discriminate ..].
Defined.

(** ** The repository *)

(** C6: AddEntry issues one statement, the insert with the three fields
    name, email and message and nothing else, and returns the handle's
    error as it is. On the reference engine the statement is received once
    whether it fails or not (no retry); when it succeeds the table has one
    more row, with the three fields as given and with the id and the
    posted timestamp taken from the engine's sequence and clock; when it
    fails the table is unchanged. *)
Theorem AddEntry_inserts_one_row :
  (forall (DB : Type) (H : SqlDB DB) (db : DB) (name email message : string),
      EntryRepo.AddEntry db name email message
      = Exec db (InsertEntry name email message)) /\
  (forall (pg : Pg) (name email message : string),
      let added := EntryRepo.AddEntry pg name email message in
      executed (fst added) = executed pg ++ [SExec (InsertEntry name email message)] /\
      snd added = hd None (faults pg) /\
      table (fst added)
      = match snd added with
        | None =>
            table pg ++ [{| ID := next_id pg; Name := name; Email := email;
                            Message := message; Posted := now pg |}]
        | Some _ => table pg
        end).
Proof.
  split.
  - intros DB H db name email message. unfold EntryRepo.AddEntry.
    destruct (Exec db (InsertEntry name email message)). reflexivity.
  - intros pg name email message.
    unfold EntryRepo.AddEntry. cbn [Exec Pg_SqlDB].
    unfold pg_Exec, pg_receive.
    destruct (faults pg) as [| [err |] rest]; cbn; repeat split; reflexivity.
Qed.

(** C10: when CountEntries returns an error, be it the query's or the
    scan's, the count it returns is 0; a count other than 0 comes with no
    error. *)
Theorem CountEntries_zero_on_error :
  forall (DB : Type) (H : SqlDB DB) (db db' : DB) (count : Z) (err : option error),
    EntryRepo.CountEntries db = (db', (count, err)) ->
    (err <> None -> count = 0) /\ (count <> 0 -> err = None).
Proof.
  intros DB H db db' count err. unfold EntryRepo.CountEntries.
  destruct (QueryRow db SelectCount) as [db1 row].
  destruct (Row_Err row) as [e |]; [| destruct (Row_Scan row) as [n | e]];
    intros Heq; injection Heq as <- <- <-; split; congruence.
Qed.

(** A failing scan, a failing query, and a count of twelve. *)
Lemma CountEntries_zero_on_error_witness :
  let scan_error := New "sql: Scan error on column index 0" in
  let script := [ReplyRow {| Row_Err := None; Row_Scan := inr scan_error |}] in
  (EntryRepo.CountEntries script = ([], (0, Some scan_error)) /\
   ((Some scan_error <> None -> 0 = 0) /\ (0 <> 0 -> Some scan_error = None))) /\
  (fst (snd (EntryRepo.CountEntries failing_pg)) = 0 /\
   snd (snd (EntryRepo.CountEntries failing_pg)) <> None) /\
  (fst (snd (EntryRepo.CountEntries sample_pg)) = 12 /\
   snd (snd (EntryRepo.CountEntries sample_pg)) = None).
Proof.
  cbv zeta. split; [| split].
  - split; [reflexivity |].
    apply (CountEntries_zero_on_error (list Reply) Script_SqlDB
             [ReplyRow {| Row_Err := None;
                          Row_Scan := inr (New "sql: Scan error on column index 0") |}]
             [] 0 (Some (New "sql: Scan error on column index 0"))).
    reflexivity.
  - split; [| vm_compute; discriminate].
    apply (CountEntries_zero_on_error Pg Pg_SqlDB failing_pg
             (fst (EntryRepo.CountEntries failing_pg))
             (fst (snd (EntryRepo.CountEntries failing_pg)))
             (snd (snd (EntryRepo.CountEntries failing_pg)))).
    + reflexivity.
    + vm_compute. discriminate.
  - split; [reflexivity |].
    apply (CountEntries_zero_on_error Pg Pg_SqlDB sample_pg
             (fst (EntryRepo.CountEntries sample_pg)) 12
             (snd (snd (EntryRepo.CountEntries sample_pg)))).
    + reflexivity.
    + lia.
Defined.

Lemma ListEntries_loop_error (rows : list (Entry + error)) :
  forall (acc entries : slice Entry) (err : error),
    EntryRepo.ListEntries_loop rows acc = (entries, Some err) ->
    entries = nil_slice.
Proof.
  induction rows as [| [entry | e] rows IH]; intros acc entries err;
    cbn [EntryRepo.ListEntries_loop].
  - discriminate.
  - apply IH.
  - intros Heq. injection Heq as <- _. reflexivity.
Qed.

Lemma ListEntries_loop_first_failure (before : list Entry) :
  forall (e : error) (after : list (Entry + error)) (acc : slice Entry),
    EntryRepo.ListEntries_loop (map inl before ++ inr e :: after) acc
    = (nil_slice, Some e).
Proof.
  induction before as [| entry before IH]; intros e after acc;
    cbn [map app EntryRepo.ListEntries_loop]; [reflexivity | apply IH].
Qed.

Lemma ListEntries_loop_all_scanned (l : list Entry) :
  forall acc : slice Entry,
    EntryRepo.ListEntries_loop (map inl l) acc
    = (match l with [] => acc | _ :: _ => slice_of (elems acc ++ l) end, None).
Proof.
  induction l as [| entry l IH]; intros acc; cbn [map EntryRepo.ListEntries_loop];
    [reflexivity |].
  rewrite IH. unfold append. cbn [elems].
  destruct l as [| entry' l]; [reflexivity |].
  rewrite <- app_assoc. reflexivity.
Qed.

(** C9: whenever ListEntries returns an error, the sequence it returns is
    nil: no prefix of scanned entries comes with an error. When the scan of
    a row fails after any number of rows scanned well, the result is nil
    together with that row's error. *)
Theorem ListEntries_no_partial_page :
  forall (DB : Type) (H : SqlDB DB) (db : DB) (page : Z),
    (forall (db' : DB) (entries : slice Entry) (err : error),
        EntryRepo.ListEntries db page = (db', (entries, Some err)) ->
        entries = nil_slice) /\
    (forall (db' : DB) (rows : Rows) (before : list Entry) (e : error)
            (after : list (Entry + error)),
        Query db (SelectEntries MaxEntriesPerPage (EntryRepo.ListEntries_offset page))
        = (db', inl rows) ->
        Rows_Scan rows = map inl before ++ inr e :: after ->
        EntryRepo.ListEntries db page = (db', (nil_slice, Some e))).
Proof.
  intros DB H db page. unfold EntryRepo.ListEntries. split.
  - intros db' entries err.
    destruct (Query db _) as [db1 [rows | e]].
    + intros Heq. injection Heq as _ Hloop.
      apply (ListEntries_loop_error _ _ _ _ Hloop).
    + intros Heq. injection Heq as _ Hnil _. symmetry. exact Hnil.
  - intros db' rows before e after Hquery Hscan.
    rewrite Hquery, Hscan, ListEntries_loop_first_failure. reflexivity.
Qed.

(** Two rows scanned, the third fails: nothing of the page is returned. *)
Lemma ListEntries_no_partial_page_witness :
  let scan_error := New "sql: Scan error on column index 4" in
  let rows := {| Rows_Scan := [inl (sample_entry 2); inl (sample_entry 1);
                               inr scan_error; inl (sample_entry 3)];
                 Rows_Err := None |} in
  EntryRepo.ListEntries [ReplyRows (inl rows)] 1 = ([], (nil_slice, Some scan_error)) /\
  fst (snd (EntryRepo.ListEntries [ReplyRows (inl rows)] 1)) = nil_slice.
Proof.
  cbv zeta.
  set (scan_error := New "sql: Scan error on column index 4").
  set (rows := {| Rows_Scan := [inl (sample_entry 2); inl (sample_entry 1);
                                inr scan_error; inl (sample_entry 3)];
                  Rows_Err := None |}).
  pose proof (ListEntries_no_partial_page (list Reply) Script_SqlDB
                [ReplyRows (inl rows)] 1) as [Hnil Hfirst].
  split.
  - apply (Hfirst [] rows [sample_entry 2; sample_entry 1] scan_error
             [inl (sample_entry 3)]); reflexivity.
  - apply (Hnil [] _ scan_error). reflexivity.
Defined.

(** ** Listing on the reference engine *)

#[export] Instance newer_first_transitive : Transitive newer_first.
Proof. unfold Transitive, newer_first. intros a b c Hab Hbc. lia. Qed.

#[export] Instance newer_first_total : Total newer_first.
Proof. unfold Total, newer_first. intros a b. lia. Qed.

Lemma order_by_posted_desc_sorted (rows : list Entry) :
  StronglySorted newer_first (order_by_posted_desc rows).
Proof. apply StronglySorted_merge_sort; apply _. Qed.

Lemma order_by_posted_desc_perm (rows : list Entry) :
  Permutation (order_by_posted_desc rows) rows.
Proof. apply merge_sort_Permutation. Qed.

Lemma StronglySorted_page (l : list Entry) (n k : nat) :
  StronglySorted newer_first l ->
  StronglySorted newer_first (firstn n (skipn k l)).
Proof.
  intros Hl.
  rewrite <- (firstn_skipn k l) in Hl.
  apply StronglySorted_app_1_r in Hl.
  rewrite <- (firstn_skipn n (skipn k l)) in Hl.
  apply StronglySorted_app_1_l in Hl. exact Hl.
Qed.

Lemma ListEntries_offset_exact (page : Z) :
  GoInt.minInt <= (page - 1) * 10 <= GoInt.maxInt ->
  EntryRepo.ListEntries_offset page = (page - 1) * 10.
Proof.
  unfold EntryRepo.ListEntries_offset, GoInt.mul, GoInt.sub, MaxEntriesPerPage.
  intros Hrange.
  rewrite (wrap_small (page - 1)) by (unfold GoInt.minInt, GoInt.maxInt in *; lia).
  apply wrap_small. exact Hrange.
Qed.

(** What ListEntries does on the reference engine. *)
Lemma ListEntries_on_pg (pg : Pg) (page : Z) :
  let offset := EntryRepo.ListEntries_offset page in
  let rows := firstn 10 (skipn (Z.to_nat offset) (order_by_posted_desc (table pg))) in
  EntryRepo.ListEntries pg page
  = (fst (pg_receive pg (SQuery (SelectEntries 10 offset))),
     match hd None (faults pg) with
     | Some err => (nil_slice, Some err)
     | None =>
         if offset <? 0
         then (nil_slice, Some (New "pq: OFFSET must not be negative"))
         else (match rows with [] => nil_slice | _ :: _ => slice_of rows end, None)
     end).
Proof.
  cbv zeta. unfold EntryRepo.ListEntries. cbn [Query Pg_SqlDB].
  unfold pg_Query, pg_receive, MaxEntriesPerPage.
  destruct (hd None (faults pg)) as [err |]; cbn [fst]; [reflexivity |].
  change (10 <? 0) with false. cbv iota.
  destruct (EntryRepo.ListEntries_offset page <? 0); [reflexivity |].
  cbn [Rows_Scan table]. change (Z.to_nat 10) with 10%nat.
  rewrite ListEntries_loop_all_scanned. reflexivity.
Qed.

(** C4, as stated, fails at page 922337203685477582: the product
    (page - 1) * 10 leaves the range of [int], the offset handed to the
    query is negative, and the engine refuses it. *)
Lemma ListEntries_offset_overflow :
  EntryRepo.ListEntries_offset 922337203685477582 = -9223372036854775806 /\
  EntryRepo.ListEntries_offset 922337203685477582 <> (922337203685477582 - 1) * 10 /\
  snd (EntryRepo.ListEntries sample_pg 922337203685477582)
  = (nil_slice, Some (New "pq: OFFSET must not be negative")).
Proof.
  split; [reflexivity |]. split; [| reflexivity].
  intros Heq. vm_compute in Heq. discriminate Heq.
Qed.

(** C4 (amended): for every page number, ListEntries sends the query with
    LIMIT 10, and returns at most 10 entries, ordered by posted descending.
    For every page number whose product (page - 1) * 10 lies in the range
    of [int], the OFFSET of the query is (page - 1) * 10. For every page
    number from 1 to 922337203685477581, when the statement does not fail,
    the entries returned are the first 10 after skipping (page - 1) * 10
    rows of the table ordered by posted descending. *)
Theorem ListEntries_page_of_ten :
  forall (pg : Pg) (page : Z),
    let result := EntryRepo.ListEntries pg page in
    let entries := elems (fst (snd result)) in
    (length entries <= 10)%nat /\
    StronglySorted newer_first entries /\
    executed (fst result)
    = executed pg ++ [SQuery (SelectEntries 10 (EntryRepo.ListEntries_offset page))] /\
    (GoInt.minInt <= (page - 1) * 10 <= GoInt.maxInt ->
     EntryRepo.ListEntries_offset page = (page - 1) * 10) /\
    (1 <= page <= 922337203685477581 -> hd None (faults pg) = None ->
     snd (snd result) = None /\
     entries = firstn 10 (skipn (Z.to_nat ((page - 1) * 10))
                            (order_by_posted_desc (table pg)))) /\
    Permutation (order_by_posted_desc (table pg)) (table pg) /\
    StronglySorted newer_first (order_by_posted_desc (table pg)).
Proof.
  intros pg page. cbv zeta.
  rewrite ListEntries_on_pg. cbn [fst snd].
  set (offset := EntryRepo.ListEntries_offset page).
  set (rows := firstn 10 (skipn (Z.to_nat offset) (order_by_posted_desc (table pg)))).
  assert (Hrows : (length rows <= 10)%nat /\ StronglySorted newer_first rows).
  { split; [apply firstn_le_length |].
    apply StronglySorted_page, order_by_posted_desc_sorted. }
  assert (Helems : elems (match rows with [] => nil_slice | _ :: _ => slice_of rows end)
                   = rows) by (destruct rows; reflexivity).
  split; [| split; [| split; [| split; [| split; [| split]]]]].
  - destruct (hd None (faults pg)); [cbn; lia |].
    destruct (offset <? 0); cbn [fst elems length]; [lia |].
    rewrite Helems. apply Hrows.
  - destruct (hd None (faults pg)); [constructor |].
    destruct (offset <? 0); cbn [fst elems]; [constructor |].
    rewrite Helems. apply Hrows.
  - reflexivity.
  - apply ListEntries_offset_exact.
  - intros Hpage Hfault. rewrite Hfault.
    assert (Hoff : offset = (page - 1) * 10).
    { apply ListEntries_offset_exact. unfold GoInt.minInt, GoInt.maxInt. lia. }
    replace (offset <? 0) with false by (symmetry; apply Z.ltb_ge; lia).
    cbn [fst snd]. split; [reflexivity |].
    rewrite Helems. unfold rows. rewrite Hoff. reflexivity.
  - apply order_by_posted_desc_perm.
  - apply order_by_posted_desc_sorted.
Qed.

(** Page 2 of the twelve sample entries holds the two oldest. *)
Lemma ListEntries_page_of_ten_witness :
  EntryRepo.ListEntries_offset 2 = 10 /\
  snd (snd (EntryRepo.ListEntries sample_pg 2)) = None /\
  elems (fst (snd (EntryRepo.ListEntries sample_pg 2)))
  = [sample_entry 2; sample_entry 1].
Proof.
  destruct (ListEntries_page_of_ten sample_pg 2)
    as (_ & _ & _ & Hoffset & Hpage & _ & _).
  split.
  - apply Hoffset. unfold GoInt.minInt, GoInt.maxInt. lia.
  - apply Hpage; [lia | reflexivity].
Defined.

(** C5, as stated, fails for page numbers whose product (page - 1) * 10
    leaves the range of [int]. Page 1844674407370955163 lies far beyond the
    twelve sample rows, but its offset wraps to 4, and ListEntries returns
    eight rows. Page 922337203685477582 lies beyond them too, but its
    offset wraps below zero, and ListEntries returns an error. *)
Lemma ListEntries_beyond_data_overflow :
  (hd None (faults sample_pg) = None /\
   Z.of_nat (length (table sample_pg)) <= (1844674407370955163 - 1) * 10 /\
   EntryRepo.ListEntries_offset 1844674407370955163 = 4 /\
   snd (EntryRepo.ListEntries sample_pg 1844674407370955163)
   = (slice_of (map sample_entry (rev (seq 1 8))), None) /\
   snd (EntryRepo.ListEntries sample_pg 1844674407370955163) <> (nil_slice, None)) /\
  (Z.of_nat (length (table sample_pg)) <= (922337203685477582 - 1) * 10 /\
   snd (EntryRepo.ListEntries sample_pg 922337203685477582)
   = (nil_slice, Some (New "pq: OFFSET must not be negative"))).
Proof.
  split.
  - split; [reflexivity |]. split; [vm_compute; discriminate |].
    split; [reflexivity |]. split; [vm_compute; reflexivity |].
    vm_compute. discriminate.
  - split; [vm_compute; discriminate | vm_compute; reflexivity].
Qed.

(** C5 (amended): for every page number whose product (page - 1) * 10 lies
    in the range of [int] (in particular every page from 1 to
    922337203685477581) and is at or past the number of rows in the table,
    when the statement does not fail, ListEntries returns an empty sequence
    (the nil slice) and no error. *)
Theorem ListEntries_beyond_last_entry :
  forall (pg : Pg) (page : Z),
    hd None (faults pg) = None ->
    GoInt.minInt <= (page - 1) * 10 <= GoInt.maxInt ->
    Z.of_nat (length (table pg)) <= (page - 1) * 10 ->
    snd (EntryRepo.ListEntries pg page) = (nil_slice, None) /\
    len (fst (snd (EntryRepo.ListEntries pg page))) = 0.
Proof.
  intros pg page Hfault Hrange Hpast.
  rewrite ListEntries_on_pg. cbn [snd].
  rewrite Hfault, (ListEntries_offset_exact page Hrange).
  replace ((page - 1) * 10 <? 0) with false
    by (symmetry; apply Z.ltb_ge; lia).
  rewrite skipn_all2, firstn_nil; [split; reflexivity |].
  rewrite (Permutation_length (order_by_posted_desc_perm (table pg))). lia.
Qed.

(** Page 3, page 1000000 and the last page without overflow, of the twelve
    sample entries. *)
Lemma ListEntries_beyond_last_entry_witness :
  (snd (EntryRepo.ListEntries sample_pg 3) = (nil_slice, None) /\
   len (fst (snd (EntryRepo.ListEntries sample_pg 3))) = 0) /\
  (snd (EntryRepo.ListEntries sample_pg 1000000) = (nil_slice, None) /\
   len (fst (snd (EntryRepo.ListEntries sample_pg 1000000))) = 0) /\
  (snd (EntryRepo.ListEntries sample_pg 922337203685477581) = (nil_slice, None) /\
   len (fst (snd (EntryRepo.ListEntries sample_pg 922337203685477581))) = 0).
Proof.
  split; [| split].
  - apply (ListEntries_beyond_last_entry sample_pg 3); [reflexivity | |].
    + unfold GoInt.minInt, GoInt.maxInt. lia.
    + vm_compute. discriminate.
  - apply (ListEntries_beyond_last_entry sample_pg 1000000); [reflexivity | |].
    + unfold GoInt.minInt, GoInt.maxInt. lia.
    + vm_compute. discriminate.
  - apply (ListEntries_beyond_last_entry sample_pg 922337203685477581);
      [reflexivity | |].
    + unfold GoInt.minInt, GoInt.maxInt. lia.
    + vm_compute. discriminate.
Defined.

(** ** The list handler *)

Lemma http_Error_responds (w : ResponseWriter) (msg : string) (code : Z) :
  written w = None -> responds (http_Error w msg code) code (msg +:+ newline).
Proof. apply http_Error_written. Qed.

Lemma strip_one_asciiSpace (c : ascii) (l : list ascii) :
  asciiSpace c = true ->
  strip_one (map EncodeRune White_Space) (c :: l) = Some l.
Proof.
  destruct c as [[] [] [] [] [] [] [] []]; intros Hc;
    try discriminate Hc; reflexivity.
Qed.

Lemma strip_all_blank (l : list ascii) :
  forall fuel : nat,
    (length l <= fuel)%nat ->
    forallb asciiSpace l = true ->
    strip_all fuel (map EncodeRune White_Space) l = [].
Proof.
  induction l as [| c l IH]; intros fuel Hfuel Hblank.
  - destruct fuel; reflexivity.
  - destruct fuel as [| fuel]; [cbn in Hfuel; lia |].
    cbn [forallb] in Hblank. apply andb_prop in Hblank as [Hc Hl].
    cbn [strip_all]. rewrite strip_one_asciiSpace by exact Hc.
    apply IH; [cbn in Hfuel; lia | exact Hl].
Qed.

(** A string of ASCII white space only is trimmed to the empty string. *)
Lemma TrimSpace_blank (s : string) :
  forallb asciiSpace (list_ascii_of_string s) = true -> TrimSpace s = "".
Proof.
  intros Hblank. unfold TrimSpace, TrimLeftSpace.
  rewrite strip_all_blank by (auto; lia). reflexivity.
Qed.

Lemma FormValue_missing (r : Request) (key : string) :
  Form r !! key = None -> FormValue r key = "".
Proof. intros Hnone. unfold FormValue. rewrite Hnone. reflexivity. Qed.

Section ListHandlerProperties.
Context {DB : Type} `{SqlDB DB}.
Variable Quote : string -> string.
Variable Template : Type.
Variable templateText : string.
Variable template_Parse : string -> Template + error.
Variable ExecuteTemplate : Template -> TemplateData -> list string * option error.

Local Abbreviation ServeHTTP :=
  (ListHandler.ServeHTTP Quote templateText template_Parse ExecuteTemplate).
Local Abbreviation serve_page := (ListHandler.serve_page ExecuteTemplate).

(** C8: the template is parsed before the page parameter is looked at.
    When parsing fails, the answer is 500 with the parse error, whatever
    the request: the page parameter, be it missing, no number or below 1,
    is never examined, and the database handle is not touched. *)
Theorem ListHandler_template_error_first :
  forall (db : DB) (log : list string) (w : ResponseWriter) (r : Request)
         (err : error),
    template_Parse templateText = inr err ->
    written w = None ->
    ServeHTTP db log w r
    = (db, log ++ [Error err],
       http_Error w ("Error parsing template: " +:+ Error err)
         StatusInternalServerError,
       Returned) /\
    responds (snd (fst (ServeHTTP db log w r))) 500
      (("Error parsing template: " +:+ Error err) +:+ newline).
Proof.
  intros db log w r err Hparse Hw.
  assert (Hrun : ServeHTTP db log w r
                 = (db, log ++ [Error err],
                    http_Error w ("Error parsing template: " +:+ Error err)
                      StatusInternalServerError,
                    Returned)).
  { unfold ListHandler.ServeHTTP. rewrite Hparse. reflexivity. }
  split; [exact Hrun |].
  rewrite Hrun. apply http_Error_responds. exact Hw.
Qed.

(** C3: with the template parsed, the page parameter decides. A missing
    parameter, or one that is empty after trimming (white space only),
    makes the page 1 and the handler goes on to load the entries. A value
    that Atoi rejects is answered with 400 and the parse error. A number
    below 1 is answered with 400. A number of at least 1 is the page, and
    the handler goes on to load the entries. *)
Theorem ListHandler_page_parameter :
  forall (db : DB) (log : list string) (w : ResponseWriter) (r : Request)
         (t : Template),
    template_Parse templateText = inl t ->
    written w = None ->
    let pageParam := TrimSpace (FormValue r "page") in
    let served := ServeHTTP db log w r in
    (Form r !! "page" = None -> served = serve_page t 1 db log w) /\
    (forallb asciiSpace (list_ascii_of_string (FormValue r "page")) = true ->
     served = serve_page t 1 db log w) /\
    (pageParam = "" -> served = serve_page t 1 db log w) /\
    (forall (i : Z) (err : error),
        pageParam <> "" -> Atoi Quote pageParam = (i, Some err) ->
        served = (db, log ++ [Error err],
                  http_Error w ("Error parsing page parameter: " +:+ Error err)
                    StatusBadRequest,
                  Returned) /\
        responds (snd (fst served)) 400
          (("Error parsing page parameter: " +:+ Error err) +:+ newline)) /\
    (forall i : Z,
        pageParam <> "" -> Atoi Quote pageParam = (i, None) -> i < 1 ->
        served = (db, log,
                  http_Error w ("Invalid page number " +:+ Itoa i) StatusBadRequest,
                  Returned) /\
        responds (snd (fst served)) 400
          (("Invalid page number " +:+ Itoa i) +:+ newline)) /\
    (forall i : Z,
        pageParam <> "" -> Atoi Quote pageParam = (i, None) -> 1 <= i ->
        served = serve_page t i db log w).
Proof.
  intros db log w r t Hparse Hw pageParam served.
  assert (Hdefault : pageParam = "" -> served = serve_page t 1 db log w).
  { intros Hempty. unfold served, ListHandler.ServeHTTP.
    rewrite Hparse. cbv zeta. fold pageParam. rewrite Hempty. reflexivity. }
  assert (Hgiven : pageParam <> "" ->
            served
            = match Atoi Quote pageParam with
              | (_, Some err) =>
                  (db, log ++ [Error err],
                   http_Error w ("Error parsing page parameter: " +:+ Error err)
                     StatusBadRequest,
                   Returned)
              | (page, None) =>
                  if page <? 1 then
                    (db, log,
                     http_Error w ("Invalid page number " +:+ Itoa page)
                       StatusBadRequest,
                     Returned)
                  else serve_page t page db log w
              end).
  { intros Hnonempty. unfold served, ListHandler.ServeHTTP.
    rewrite Hparse. cbv zeta. fold pageParam.
    apply String.eqb_neq in Hnonempty. rewrite Hnonempty. reflexivity. }
  split; [| split; [| split; [| split; [| split]]]].
  - intros Hmissing. apply Hdefault. unfold pageParam.
    rewrite FormValue_missing by exact Hmissing. reflexivity.
  - intros Hblank. apply Hdefault. apply TrimSpace_blank. exact Hblank.
  - exact Hdefault.
  - intros i err Hnonempty Hatoi.
    rewrite (Hgiven Hnonempty), Hatoi. split; [reflexivity |].
    apply http_Error_responds. exact Hw.
  - intros i Hnonempty Hatoi Hlow.
    rewrite (Hgiven Hnonempty), Hatoi.
    replace (i <? 1) with true by (symmetry; apply Z.ltb_lt; exact Hlow).
    split; [reflexivity |].
    apply http_Error_responds. exact Hw.
  - intros i Hnonempty Hatoi Hhigh.
    rewrite (Hgiven Hnonempty), Hatoi.
    replace (i <? 1) with false by (symmetry; apply Z.ltb_ge; exact Hhigh).
    reflexivity.
Qed.

End ListHandlerProperties.

(** With a template that does not parse, a request without page, one with
    a page that is no number and one with page 0 are all answered 500. *)
Lemma ListHandler_template_error_first_witness :
  let serve :=
    ListHandler.ServeHTTP sample_Quote "Guestbook" broken_Parse sample_Execute
      sample_pg [] NewWriter in
  let body :=
    "Error parsing template: template: template.gohtml:1: unexpected EOF"
    +:+ newline in
  (fst (fst (serve (get_request ∅)))
   = (sample_pg, ["template: template.gohtml:1: unexpected EOF"]) /\
   responds (snd (fst (serve (get_request ∅)))) 500 body) /\
  responds (snd (fst (serve (get_request (<["page" := ["abc"]]> ∅))))) 500 body /\
  responds (snd (fst (serve (get_request (<["page" := ["0"]]> ∅))))) 500 body.
Proof.
  cbv zeta.
  pose proof (fun r =>
    ListHandler_template_error_first sample_Quote string "Guestbook" broken_Parse
      sample_Execute sample_pg [] NewWriter r
      (New "template: template.gohtml:1: unexpected EOF") eq_refl eq_refl) as Hfirst.
  split; [split |]; [| | split].
  - rewrite (proj1 (Hfirst (get_request ∅))). reflexivity.
  - apply (proj2 (Hfirst (get_request ∅))).
  - apply (proj2 (Hfirst (get_request (<["page" := ["abc"]]> ∅)))).
  - apply (proj2 (Hfirst (get_request (<["page" := ["0"]]> ∅)))).
Defined.

(** On the sample table: no page and a blank page give page 1, the page
    [abc] and the page [0] are refused with 400, the page [2] between
    blanks is page 2. *)
Lemma ListHandler_page_parameter_witness :
  let serve :=
    ListHandler.ServeHTTP sample_Quote "Guestbook" sample_Parse sample_Execute
      sample_pg [] NewWriter in
  let page := ListHandler.serve_page sample_Execute "Guestbook" in
  serve (get_request ∅) = page 1 sample_pg [] NewWriter /\
  serve (get_request (<["page" := ["  "]]> ∅)) = page 1 sample_pg [] NewWriter /\
  responds (snd (fst (serve (get_request (<["page" := ["abc"]]> ∅))))) 400
    (("Error parsing page parameter: "
      +:+ Error (NumError sample_Quote "Atoi" "abc" ErrSyntax)) +:+ newline) /\
  responds (snd (fst (serve (get_request (<["page" := ["0"]]> ∅))))) 400
    ("Invalid page number 0" +:+ newline) /\
  serve (get_request (<["page" := [" 2 "]]> ∅)) = page 2 sample_pg [] NewWriter.
Proof.
  cbv zeta.
  pose proof (fun r =>
    ListHandler_page_parameter sample_Quote string "Guestbook" sample_Parse
      sample_Execute sample_pg [] NewWriter r "Guestbook" eq_refl eq_refl) as Hpage.
  cbv zeta in Hpage.
  split; [| split; [| split; [| split]]].
  - apply (proj1 (Hpage (get_request ∅))). reflexivity.
  - apply (proj1 (proj2 (Hpage (get_request (<["page" := ["  "]]> ∅))))).
    reflexivity.
  - apply (proj1 (proj2 (proj2 (proj2 (Hpage (get_request (<["page" := ["abc"]]> ∅))))))
             0 (NumError sample_Quote "Atoi" "abc" ErrSyntax)).
    + vm_compute. discriminate.
    + reflexivity.
  - apply (proj1 (proj2 (proj2 (proj2 (proj2
             (Hpage (get_request (<["page" := ["0"]]> ∅))))))) 0).
    + vm_compute. discriminate.
    + reflexivity.
    + lia.
  - apply (proj2 (proj2 (proj2 (proj2 (proj2
             (Hpage (get_request (<["page" := [" 2 "]]> ∅))))))) 2).
    + vm_compute. discriminate.
    + reflexivity.
    + lia.
Defined.

(** ** Runs of the whole program on the sample data *)

Example TrimSpace_unicode :
  TrimSpace (String (byte 226) (String (byte 128) (String (byte 131) " Ann ")) +:+ newline)
  = "Ann".
Proof. reflexivity. Qed.

Example Atoi_out_of_range :
  Atoi sample_Quote "9223372036854775808"
  = (GoInt.maxInt, Some (NumError sample_Quote "Atoi" "9223372036854775808" ErrRange)).
Proof. reflexivity. Qed.

(** Page 0 never reaches the repository through the list handler; asked
    directly, the repository passes offset -10 and the engine refuses. *)
Example ListEntries_page_zero :
  EntryRepo.ListEntries_offset 0 = -10 /\
  snd (EntryRepo.ListEntries sample_pg 0)
  = (nil_slice, Some (New "pq: OFFSET must not be negative")).
Proof. split; reflexivity. Qed.

(** A submission followed by a listing: the new entry, trimmed, heads
    page 1, and thirteen entries still make one page number. *)
Example submit_then_list :
  let '(pg, w) :=
    FormHandler.ServeHTTP sample_pg NewWriter
      (post_request " Ann " "ann@example.org" "hi") in
  responds w 302 "" /\
  fst (snd (EntryRepo.CountEntries pg)) = 13 /\
  hd_error (elems (fst (snd (EntryRepo.ListEntries pg 1))))
  = Some {| ID := 13; Name := "Ann"; Email := "ann@example.org";
            Message := "hi"; Posted := 2000 |} /\
  ListHandler.templateData nil_slice 13 1
  = Some {| data_entries := nil_slice; data_totalEntries := 13; data_page := 1;
            data_pageNumbers := slice_of [1] |}.
Proof.
  vm_compute. split; [| repeat split; reflexivity].
  eexists. split; [reflexivity |]. split; reflexivity.
Qed.

(** The list handler on page 2 of the sample table: two statements are
    sent, the rendering is written with status 200. *)
Example list_page_two :
  let '(pg, log, w, done) :=
    ListHandler.ServeHTTP sample_Quote "Guestbook " sample_Parse sample_Execute
      sample_pg [] NewWriter (get_request (<["page" := ["2"]]> ∅)) in
  executed pg = [SQuery (SelectEntries 10 10); SQueryRow SelectCount] /\
  log = [] /\ responds w 200 "Guestbook 2" /\ done = Returned.
Proof.
  vm_compute. split; [reflexivity |]. split; [reflexivity |].
  split; [| reflexivity].
  eexists. split; [reflexivity |]. split; reflexivity.
Qed.

(** A handle that reports a negative count makes [make] panic. *)
Example list_negative_count :
  snd (ListHandler.ServeHTTP sample_Quote "Guestbook " sample_Parse sample_Execute
         [ReplyRows (inl {| Rows_Scan := []; Rows_Err := None |});
          ReplyRow {| Row_Err := None; Row_Scan := inl (-10) |}]
         [] NewWriter (get_request ∅))
  = Panicked "runtime error: makeslice: cap out of range".
Proof. reflexivity. Qed.

(** So does a count of 351843720888330: the capacity of the page numbers
    is then past what [make] accepts. *)
Example list_huge_count :
  snd (ListHandler.ServeHTTP sample_Quote "Guestbook " sample_Parse sample_Execute
         [ReplyRows (inl {| Rows_Scan := []; Rows_Err := None |});
          ReplyRow {| Row_Err := None; Row_Scan := inl 351843720888330 |}]
         [] NewWriter (get_request ∅))
  = Panicked "runtime error: makeslice: cap out of range".
Proof. vm_compute. reflexivity. Qed.

(** * Further properties *)

(** ** Strings and response writers *)

Lemma string_app_assoc (a b c : string) : (a +:+ b) +:+ c = a +:+ (b +:+ c).
Proof.
  induction a as [| ch a IH]; [reflexivity |].
  change (String ch ((a +:+ b) +:+ c) = String ch (a +:+ (b +:+ c))).
  f_equal. exact IH.
Qed.

Lemma string_app_nil_r (a : string) : a +:+ "" = a.
Proof.
  induction a as [| ch a IH]; [reflexivity |].
  change (String ch (a +:+ "") = String ch a).
  f_equal. exact IH.
Qed.

Lemma fold_Write_written (chunks : list string) :
  forall (w : ResponseWriter) (resp : Response),
    written w = Some resp ->
    written (fold_left Write chunks w)
    = Some {| StatusCode := StatusCode resp; RespHeader := RespHeader resp;
              Body := Body resp +:+ joined chunks |}.
Proof.
  induction chunks as [| c chunks IH]; intros w resp Hw; cbn [fold_left joined fold_right].
  - rewrite string_app_nil_r, Hw. destruct resp; reflexivity.
  - rewrite (IH _ _ (Write_written w resp c Hw)). cbn [StatusCode RespHeader Body].
    rewrite string_app_assoc. reflexivity.
Qed.

Lemma fold_Write_fresh (chunks : list string) (w : ResponseWriter) :
  written w = None -> chunks <> [] ->
  written (fold_left Write chunks w)
  = Some {| StatusCode := 200; RespHeader := Header w; Body := joined chunks |}.
Proof.
  intros Hw Hne. destruct chunks as [| c chunks]; [congruence |].
  cbn [fold_left].
  assert (Hfirst : written (Write w c)
                   = Some {| StatusCode := 200; RespHeader := Header w; Body := c |}).
  { unfold Write. rewrite (WriteHeader_fresh w StatusOK Hw). reflexivity. }
  rewrite (fold_Write_written chunks _ _ Hfirst). reflexivity.
Qed.

Lemma http_Error_after_output (w : ResponseWriter) (resp : Response)
    (msg : string) (code : Z) :
  written w = Some resp ->
  written (http_Error w msg code)
  = Some {| StatusCode := StatusCode resp; RespHeader := RespHeader resp;
            Body := Body resp +:+ (msg +:+ newline) |}.
Proof.
  intros Hw. unfold http_Error.
  apply Write_written.
  unfold WriteHeader, Header_Set, Header_Del. cbn [written]. rewrite Hw.
  reflexivity.
Qed.

(** ** The list handler after the page parameter *)

Section ListHandlerRuns.
Context {DB : Type} `{SqlDB DB}.
Variable Quote : string -> string.
Variable Template : Type.
Variable templateText : string.
Variable template_Parse : string -> Template + error.
Variable ExecuteTemplate : Template -> TemplateData -> list string * option error.

Local Abbreviation ServeHTTP :=
  (ListHandler.ServeHTTP Quote templateText template_Parse ExecuteTemplate).

Lemma ServeHTTP_accepted (db : DB) (log : list string) (w : ResponseWriter)
    (r : Request) (t : Template) (page : Z) :
  template_Parse templateText = inl t ->
  accepts_page Quote r page ->
  ServeHTTP db log w r = ListHandler.serve_page ExecuteTemplate t page db log w.
Proof.
  intros Hparse Hpage. unfold ListHandler.ServeHTTP. rewrite Hparse. cbv zeta.
  destruct Hpage as [[Hempty ->] | (Hgiven & Hatoi & Hlow)].
  - rewrite Hempty. reflexivity.
  - apply String.eqb_neq in Hgiven. rewrite Hgiven, Hatoi.
    replace (page <? 1) with false by (symmetry; apply Z.ltb_ge; exact Hlow).
    reflexivity.
Qed.

(** X1: when loading the page of entries fails, the list handler answers
    500 with the storage error's text and logs it; it asks for no count
    and renders nothing: the handle is left as the failed query left it. *)
Theorem ListHandler_load_failure :
  forall (db db1 : DB) (log : list string) (w : ResponseWriter) (r : Request)
         (t : Template) (page : Z) (entries : slice Entry) (err : error),
    template_Parse templateText = inl t ->
    accepts_page Quote r page ->
    written w = None ->
    EntryRepo.ListEntries db page = (db1, (entries, Some err)) ->
    ServeHTTP db log w r
    = (db1, log ++ [Error err],
       http_Error w ("Error loading entries: " +:+ Error err)
         StatusInternalServerError,
       Returned) /\
    responds (snd (fst (ServeHTTP db log w r))) 500
      (("Error loading entries: " +:+ Error err) +:+ newline).
Proof.
  intros db db1 log w r t page entries err Hparse Hpage Hw Hlist.
  rewrite (ServeHTTP_accepted db log w r t page Hparse Hpage).
  unfold ListHandler.serve_page. rewrite Hlist.
  split; [reflexivity |]. apply http_Error_responds. exact Hw.
Qed.

(** X2: when the page is loaded but counting the entries fails, the list
    handler answers 500 with the storage error's text and logs it; the
    entries already loaded are dropped and nothing is rendered. *)
Theorem ListHandler_count_failure :
  forall (db db1 db2 : DB) (log : list string) (w : ResponseWriter) (r : Request)
         (t : Template) (page count : Z) (entries : slice Entry) (err : error),
    template_Parse templateText = inl t ->
    accepts_page Quote r page ->
    written w = None ->
    EntryRepo.ListEntries db page = (db1, (entries, None)) ->
    EntryRepo.CountEntries db1 = (db2, (count, Some err)) ->
    ServeHTTP db log w r
    = (db2, log ++ [Error err],
       http_Error w ("Error counting entries: " +:+ Error err)
         StatusInternalServerError,
       Returned) /\
    responds (snd (fst (ServeHTTP db log w r))) 500
      (("Error counting entries: " +:+ Error err) +:+ newline).
Proof.
  intros db db1 db2 log w r t page count entries err Hparse Hpage Hw Hlist Hcount.
  rewrite (ServeHTTP_accepted db log w r t page Hparse Hpage).
  unfold ListHandler.serve_page. rewrite Hlist, Hcount.
  split; [reflexivity |]. apply http_Error_responds. exact Hw.
Qed.

(** X3: when both queries succeed, the template is executed once, on the
    entries of the page, the total count, the page and the page numbers;
    when it ends without error, its output, be it empty, is the whole body
    of the response, the status is 200, and nothing is logged. *)
Theorem ListHandler_renders_page :
  forall (db db1 db2 : DB) (log : list string) (w : ResponseWriter) (r : Request)
         (t : Template) (page count : Z) (entries : slice Entry)
         (data : TemplateData) (chunks : list string),
    template_Parse templateText = inl t ->
    accepts_page Quote r page ->
    written w = None ->
    EntryRepo.ListEntries db page = (db1, (entries, None)) ->
    EntryRepo.CountEntries db1 = (db2, (count, None)) ->
    ListHandler.templateData entries count page = Some data ->
    ExecuteTemplate t data = (chunks, None) ->
    ServeHTTP db log w r = (db2, log, fold_left Write chunks w, Returned) /\
    finishRequest (snd (fst (ServeHTTP db log w r)))
    = {| StatusCode := 200; RespHeader := Header w; Body := joined chunks |} /\
    data_entries data = entries /\ data_totalEntries data = count /\
    data_page data = page.
Proof.
  intros db db1 db2 log w r t page count entries data chunks
    Hparse Hpage Hw Hlist Hcount Hdata Hexec.
  rewrite (ServeHTTP_accepted db log w r t page Hparse Hpage).
  unfold ListHandler.serve_page. rewrite Hlist, Hcount, Hdata, Hexec.
  cbn [fst snd]. split; [reflexivity |]. split.
  - unfold finishRequest. destruct chunks as [| c chunks].
    + cbn [fold_left]. rewrite Hw. reflexivity.
    + rewrite fold_Write_fresh by (exact Hw || discriminate). reflexivity.
  - unfold ListHandler.templateData in Hdata.
    destruct (ListHandler.pageNumbers _); [| discriminate].
    injection Hdata as <-. repeat split.
Qed.

(** X4: when the template stops with an error, the error is logged and its
    text is written; but a status has gone out with the first chunk of
    output, so the response keeps status 200 and the error text follows
    the output written so far. Only when nothing had been written is the
    response a 500. *)
Theorem ListHandler_template_failure :
  forall (db db1 db2 : DB) (log : list string) (w : ResponseWriter) (r : Request)
         (t : Template) (page count : Z) (entries : slice Entry)
         (data : TemplateData) (chunks : list string) (err : error),
    template_Parse templateText = inl t ->
    accepts_page Quote r page ->
    written w = None ->
    EntryRepo.ListEntries db page = (db1, (entries, None)) ->
    EntryRepo.CountEntries db1 = (db2, (count, None)) ->
    ListHandler.templateData entries count page = Some data ->
    ExecuteTemplate t data = (chunks, Some err) ->
    let msg := ("Error executing template: " +:+ Error err) +:+ newline in
    fst (ServeHTTP db log w r) = (db2, log ++ [Error err],
       http_Error (fold_left Write chunks w)
         ("Error executing template: " +:+ Error err) StatusInternalServerError) /\
    match chunks with
    | [] => responds (snd (fst (ServeHTTP db log w r))) 500 msg
    | _ :: _ => responds (snd (fst (ServeHTTP db log w r))) 200 (joined chunks +:+ msg)
    end.
Proof.
  intros db db1 db2 log w r t page count entries data chunks err
    Hparse Hpage Hw Hlist Hcount Hdata Hexec msg.
  rewrite (ServeHTTP_accepted db log w r t page Hparse Hpage).
  unfold ListHandler.serve_page. rewrite Hlist, Hcount, Hdata, Hexec.
  cbn [fst snd]. split; [reflexivity |].
  destruct chunks as [| c chunks].
  - cbn [fold_left]. apply http_Error_responds. exact Hw.
  - eexists. split.
    + apply http_Error_after_output.
      apply fold_Write_fresh; [exact Hw | discriminate].
    + split; reflexivity.
Qed.

End ListHandlerRuns.

(** The first statement fails: one statement sent, answer 500. *)
Lemma ListHandler_load_failure_witness :
  let served :=
    ListHandler.ServeHTTP sample_Quote "Guestbook" sample_Parse sample_Execute
      failing_pg [] NewWriter (get_request ∅) in
  executed (fst (fst (fst served))) = [SQuery (SelectEntries 10 0)] /\
  snd (fst (fst served)) = ["pq: connection refused"] /\
  responds (snd (fst served)) 500
    (("Error loading entries: " +:+ "pq: connection refused") +:+ newline).
Proof.
  cbv zeta.
  destruct (ListHandler_load_failure sample_Quote string "Guestbook" sample_Parse
              sample_Execute failing_pg
              {| table := map sample_entry (seq 1 12); next_id := 13; now := 2000;
                 faults := []; executed := [SQuery (SelectEntries 10 0)] |}
              [] NewWriter (get_request ∅) "Guestbook" 1 nil_slice
              (New "pq: connection refused"))
    as [Hrun Hresp].
  - reflexivity.
  - left. split; vm_compute; reflexivity.
  - reflexivity.
  - vm_compute. reflexivity.
  - rewrite Hrun. split; [reflexivity |]. split; [reflexivity |].
    rewrite Hrun in Hresp. exact Hresp.
Defined.

(** The second statement fails: two statements sent, answer 500. *)
Lemma ListHandler_count_failure_witness :
  let served :=
    ListHandler.ServeHTTP sample_Quote "Guestbook" sample_Parse sample_Execute
      count_failing_pg [] NewWriter (get_request ∅) in
  executed (fst (fst (fst served)))
  = [SQuery (SelectEntries 10 0); SQueryRow SelectCount] /\
  responds (snd (fst served)) 500
    (("Error counting entries: " +:+ "pq: connection reset") +:+ newline).
Proof.
  cbv zeta.
  destruct (ListHandler_count_failure sample_Quote string "Guestbook" sample_Parse
              sample_Execute count_failing_pg
              {| table := map sample_entry (seq 1 12); next_id := 13; now := 2000;
                 faults := [Some (New "pq: connection reset")];
                 executed := [SQuery (SelectEntries 10 0)] |}
              {| table := map sample_entry (seq 1 12); next_id := 13; now := 2000;
                 faults := [];
                 executed := [SQuery (SelectEntries 10 0); SQueryRow SelectCount] |}
              [] NewWriter (get_request ∅) "Guestbook" 1 0
              (slice_of (map sample_entry (rev (seq 3 10))))
              (New "pq: connection reset"))
    as [Hrun Hresp].
  - reflexivity.
  - left. split; vm_compute; reflexivity.
  - reflexivity.
  - vm_compute. reflexivity.
  - vm_compute. reflexivity.
  - rewrite Hrun. split; [reflexivity |].
    rewrite Hrun in Hresp. exact Hresp.
Defined.

(** Page 2 of the sample table is rendered with status 200; a template
    that writes nothing gives an empty 200. *)
Lemma ListHandler_renders_page_witness :
  (let served :=
     ListHandler.ServeHTTP sample_Quote "Guestbook " sample_Parse sample_Execute
       sample_pg [] NewWriter (get_request (<["page" := ["2"]]> ∅)) in
   snd (fst (fst served)) = [] /\
   finishRequest (snd (fst served))
   = {| StatusCode := 200; RespHeader := ∅; Body := joined ["Guestbook "; "2"] |}) /\
  finishRequest
    (snd (fst (ListHandler.ServeHTTP sample_Quote "Guestbook " sample_Parse
                 silent_Execute sample_pg [] NewWriter
                 (get_request (<["page" := ["2"]]> ∅)))))
  = {| StatusCode := 200; RespHeader := ∅; Body := "" |}.
Proof.
  cbv zeta.
  pose (pg1 := {| table := map sample_entry (seq 1 12); next_id := 13; now := 2000;
                  faults := []; executed := [SQuery (SelectEntries 10 10)] |}).
  pose (pg2 := {| table := map sample_entry (seq 1 12); next_id := 13; now := 2000;
                  faults := [];
                  executed := [SQuery (SelectEntries 10 10); SQueryRow SelectCount] |}).
  pose (data := {| data_entries := slice_of [sample_entry 2; sample_entry 1];
                   data_totalEntries := 12; data_page := 2;
                   data_pageNumbers := slice_of [1] |}).
  split.
  - destruct (ListHandler_renders_page sample_Quote string "Guestbook " sample_Parse
                sample_Execute sample_pg pg1 pg2
                [] NewWriter (get_request (<["page" := ["2"]]> ∅)) "Guestbook " 2 12
                (slice_of [sample_entry 2; sample_entry 1]) data
                ["Guestbook "; "2"])
      as (Hrun & Hresp & _).
    + reflexivity.
    + right. split; [vm_compute; discriminate |].
      split; [vm_compute; reflexivity | lia].
    + reflexivity.
    + vm_compute. reflexivity.
    + vm_compute. reflexivity.
    + vm_compute. reflexivity.
    + reflexivity.
    + split; [rewrite Hrun; reflexivity | exact Hresp].
  - destruct (ListHandler_renders_page sample_Quote string "Guestbook " sample_Parse
                silent_Execute sample_pg pg1 pg2
                [] NewWriter (get_request (<["page" := ["2"]]> ∅)) "Guestbook " 2 12
                (slice_of [sample_entry 2; sample_entry 1]) data [])
      as (_ & Hresp & _).
    + reflexivity.
    + right. split; [vm_compute; discriminate |].
      split; [vm_compute; reflexivity | lia].
    + reflexivity.
    + vm_compute. reflexivity.
    + vm_compute. reflexivity.
    + vm_compute. reflexivity.
    + reflexivity.
    + exact Hresp.
Defined.

(** A template that fails after its first chunk leaves a 200 whose body
    ends with the error; one that fails before any output gives a 500. *)
Lemma ListHandler_template_failure_witness :
  responds
    (snd (fst (ListHandler.ServeHTTP sample_Quote "Guestbook" sample_Parse
                 failing_Execute sample_pg [] NewWriter (get_request ∅))))
    200
    (joined ["Guestbook"]
     +:+ ("Error executing template: " +:+ Error ErrExecute) +:+ newline) /\
  responds
    (snd (fst (ListHandler.ServeHTTP sample_Quote "Guestbook" sample_Parse
                 silent_failing_Execute sample_pg [] NewWriter (get_request ∅))))
    500
    (("Error executing template: " +:+ Error ErrExecute) +:+ newline).
Proof.
  pose (pg1 := {| table := map sample_entry (seq 1 12); next_id := 13; now := 2000;
                  faults := []; executed := [SQuery (SelectEntries 10 0)] |}).
  pose (pg2 := {| table := map sample_entry (seq 1 12); next_id := 13; now := 2000;
                  faults := [];
                  executed := [SQuery (SelectEntries 10 0); SQueryRow SelectCount] |}).
  pose (entries := slice_of (map sample_entry (rev (seq 3 10)))).
  pose (data := {| data_entries := entries; data_totalEntries := 12; data_page := 1;
                   data_pageNumbers := slice_of [1] |}).
  split.
  - destruct (ListHandler_template_failure sample_Quote string "Guestbook" sample_Parse
                failing_Execute sample_pg pg1 pg2 [] NewWriter (get_request ∅)
                "Guestbook" 1 12 entries data ["Guestbook"] ErrExecute)
      as [_ Hresp];
      [reflexivity | left; split; vm_compute; reflexivity | reflexivity
      | vm_compute; reflexivity | vm_compute; reflexivity | vm_compute; reflexivity
      | reflexivity | exact Hresp].
  - destruct (ListHandler_template_failure sample_Quote string "Guestbook" sample_Parse
                silent_failing_Execute sample_pg pg1 pg2 [] NewWriter (get_request ∅)
                "Guestbook" 1 12 entries data [] ErrExecute)
      as [_ Hresp];
      [reflexivity | left; split; vm_compute; reflexivity | reflexivity
      | vm_compute; reflexivity | vm_compute; reflexivity | vm_compute; reflexivity
      | reflexivity | exact Hresp].
Defined.

(** ** The repository on any handle, and on the reference engine *)

(** X5: ListEntries never asks the rows for the error that ended the
    iteration. When every row it is given scans well, it returns those
    rows, in the order given, with a nil error, whether the iteration ran
    to its end or was cut short by an error. *)
Theorem ListEntries_drops_iteration_error :
  forall (DB : Type) (H : SqlDB DB) (db db' : DB) (page : Z)
         (delivered : list Entry) (iteration : option error),
    Query db (SelectEntries MaxEntriesPerPage (EntryRepo.ListEntries_offset page))
    = (db', inl {| Rows_Scan := map inl delivered; Rows_Err := iteration |}) ->
    exists entries : slice Entry,
      EntryRepo.ListEntries db page = (db', (entries, None)) /\
      elems entries = delivered.
Proof.
  intros DB H db db' page delivered iteration Hquery.
  unfold EntryRepo.ListEntries. rewrite Hquery. cbn [Rows_Scan].
  rewrite ListEntries_loop_all_scanned.
  eexists. split; [reflexivity |].
  destruct delivered; reflexivity.
Qed.

(** Two rows arrive, then the connection breaks: a page of two, no error. *)
Lemma ListEntries_drops_iteration_error_witness :
  exists entries : slice Entry,
    EntryRepo.ListEntries
      [ReplyRows (inl {| Rows_Scan := map inl [sample_entry 12; sample_entry 11];
                         Rows_Err := Some (New "driver: bad connection") |})] 1
    = ([], (entries, None)) /\
    elems entries = [sample_entry 12; sample_entry 11].
Proof.
  apply (ListEntries_drops_iteration_error (list Reply) Script_SqlDB
           [ReplyRows (inl {| Rows_Scan := map inl [sample_entry 12; sample_entry 11];
                              Rows_Err := Some (New "driver: bad connection") |})]
           [] 1 [sample_entry 12; sample_entry 11]
           (Some (New "driver: bad connection"))).
  reflexivity.
Defined.

Lemma CountEntries_on_pg (pg : Pg) :
  EntryRepo.CountEntries pg
  = (fst (pg_receive pg (SQueryRow SelectCount)),
     match hd None (faults pg) with
     | Some err => (0, Some err)
     | None => (Z.of_nat (length (table pg)), None)
     end).
Proof.
  unfold EntryRepo.CountEntries. cbn [QueryRow Pg_SqlDB].
  unfold pg_QueryRow, pg_receive.
  destruct (hd None (faults pg)); reflexivity.
Qed.

Lemma AddEntry_on_pg (pg : Pg) (name email message : string) :
  EntryRepo.AddEntry pg name email message
  = match hd None (faults pg) with
    | Some err => (fst (pg_receive pg (SExec (InsertEntry name email message))), Some err)
    | None =>
        ({| table := table pg ++
                       [{| ID := next_id pg; Name := name; Email := email;
                           Message := message; Posted := now pg |}];
            next_id := next_id pg + 1; now := now pg;
            faults := tl (faults pg);
            executed := executed pg ++ [SExec (InsertEntry name email message)] |},
         None)
    end.
Proof.
  unfold EntryRepo.AddEntry. cbn [Exec Pg_SqlDB].
  unfold pg_Exec, pg_receive.
  destruct (hd None (faults pg)); reflexivity.
Qed.




Lemma sorted_head_is_newest (l t : list Entry) (x : Entry) :
  StronglySorted newer_first l ->
  Permutation l (t ++ [x]) ->
  List.Forall (fun e => Posted e < Posted x) t ->
  exists rest, l = x :: rest.
Proof.
  intros Hsorted Hperm Holder.
  destruct l as [| y l'].
  - apply Permutation_nil in Hperm. destruct t; discriminate Hperm.
  - assert (Hy : In y (t ++ [x])) by (apply (Permutation_in _ Hperm); left; reflexivity).
    apply in_app_or in Hy as [Hy | [Hy | []]].
    + exfalso.
      rewrite List.Forall_forall in Holder. specialize (Holder y Hy).
      assert (Hx : In x (y :: l')).
      { apply (Permutation_in _ (Permutation_sym Hperm)), in_or_app.
        right. left. reflexivity. }
      destruct Hx as [Hx | Hx]; [subst; lia |].
      inversion Hsorted as [| ? ? _ Hall]; subst.
      rewrite List.Forall_forall in Hall. specialize (Hall x Hx).
      unfold newer_first in Hall. lia.
    + subst. exists l'. reflexivity.
Qed.

(** X7: an accepted submission shows at once. On an engine that fails no
    statement and whose clock is past every stored timestamp, after the
    form handler has served a submission with three non-empty fields, page
    1 of ListEntries begins with the new entry: the trimmed fields, the
    next id, the engine's time. *)
Theorem submitted_entry_heads_page_one :
  forall (pg : Pg) (w : ResponseWriter) (r : Request),
    faults pg = [] ->
    List.Forall (fun e => Posted e < now pg) (table pg) ->
    TrimSpace (PostFormValue r "name") <> "" ->
    TrimSpace (PostFormValue r "email") <> "" ->
    TrimSpace (PostFormValue r "message") <> "" ->
    exists rest : list Entry,
      snd (EntryRepo.ListEntries (fst (FormHandler.ServeHTTP pg w r)) 1)
      = (slice_of ({| ID := next_id pg;
                      Name := TrimSpace (PostFormValue r "name");
                      Email := TrimSpace (PostFormValue r "email");
                      Message := TrimSpace (PostFormValue r "message");
                      Posted := now pg |} :: rest),
         None).
Proof.
  intros pg w r Hfaults Holder Hname Hemail Hmessage.
  unfold FormHandler.ServeHTTP. cbv zeta.
  apply String.eqb_neq in Hname, Hemail, Hmessage.
  rewrite Hname, Hemail, Hmessage. cbn [orb].
  rewrite AddEntry_on_pg, Hfaults. cbn [hd tl fst].
  rewrite ListEntries_on_pg. cbn [snd faults hd table].
  change (EntryRepo.ListEntries_offset 1) with 0.
  cbn [Z.ltb Z.compare Z.to_nat skipn].
  set (new := {| ID := next_id pg; Posted := now pg |}).
  destruct (sorted_head_is_newest (order_by_posted_desc (table pg ++ [new]))
              (table pg) new) as [rest Hsorted].
  - apply order_by_posted_desc_sorted.
  - apply order_by_posted_desc_perm.
  - exact Holder.
  - rewrite Hsorted. cbn [firstn]. eexists. reflexivity.
Qed.

(** A submission to the sample table heads page 1, ahead of the twelve. *)
Lemma submitted_entry_heads_page_one_witness :
  exists rest : list Entry,
    snd (EntryRepo.ListEntries
           (fst (FormHandler.ServeHTTP sample_pg NewWriter
                   (post_request " Ann " "ann@example.org" "hi"))) 1)
    = (slice_of ({| ID := 13; Name := "Ann"; Email := "ann@example.org";
                    Message := "hi"; Posted := 2000 |} :: rest),
       None).
Proof.
  apply (submitted_entry_heads_page_one sample_pg NewWriter
           (post_request " Ann " "ann@example.org" "hi")).
  - reflexivity.
  - vm_compute. repeat constructor.
  - vm_compute. discriminate.
  - vm_compute. discriminate.
  - vm_compute. discriminate.
Defined.

Lemma firstn_add_skipn {A : Type} (a b : nat) :
  forall l : list A, firstn (a + b) l = firstn a l ++ firstn b (skipn a l).
Proof.
  induction a as [| a IH]; intros l; [reflexivity |].
  destruct l as [| x l]; cbn [Nat.add firstn skipn app].
  - rewrite firstn_nil. reflexivity.
  - rewrite IH. reflexivity.
Qed.

Lemma ListEntries_page_on_pg (pg : Pg) (p : nat) :
  hd None (faults pg) = None ->
  (1 <= p)%nat -> Z.of_nat p <= 922337203685477581 ->
  EntryRepo.ListEntries_offset (Z.of_nat p) = Z.of_nat (10 * (p - 1)) /\
  snd (snd (EntryRepo.ListEntries pg (Z.of_nat p))) = None /\
  elems (fst (snd (EntryRepo.ListEntries pg (Z.of_nat p))))
  = firstn 10 (skipn (10 * (p - 1)) (order_by_posted_desc (table pg))).
Proof.
  intros Hfault Hlow Hhigh.
  assert (Hoff : EntryRepo.ListEntries_offset (Z.of_nat p) = Z.of_nat (10 * (p - 1))).
  { rewrite ListEntries_offset_exact by (unfold GoInt.minInt, GoInt.maxInt; lia). lia. }
  split; [exact Hoff |].
  rewrite ListEntries_on_pg. cbn [snd]. rewrite Hfault, Hoff.
  replace (Z.of_nat (10 * (p - 1)) <? 0) with false by (symmetry; apply Z.ltb_ge; lia).
  rewrite Nat2Z.id. cbn [fst snd]. split; [reflexivity |].
  destruct (firstn 10 _); reflexivity.
Qed.

Lemma distinct_timestamps (rows : list Entry) (a b : Entry) :
  NoDup (map Posted rows) -> In a rows -> In b rows -> Posted a = Posted b -> a = b.
Proof.
  induction rows as [| x rows IH]; intros Hnodup Ha Hb Heq; [destruct Ha |].
  cbn [map] in Hnodup. apply NoDup_cons in Hnodup as [Hfresh Hnodup].
  destruct Ha as [-> | Ha], Hb as [-> | Hb].
  - reflexivity.
  - exfalso. apply Hfresh. rewrite Heq. apply list_elem_of_In, in_map. exact Hb.
  - exfalso. apply Hfresh. rewrite <- Heq. apply list_elem_of_In, in_map. exact Ha.
  - apply IH; assumption.
Qed.

(** With distinct timestamps there is one way to order the rows newest
    first: whatever the engine does with ties, it returns this order. *)
Lemma order_by_posted_desc_unique (rows sorted : list Entry) :
  NoDup (map Posted rows) ->
  Permutation sorted rows ->
  StronglySorted newer_first sorted ->
  sorted = order_by_posted_desc rows.
Proof.
  intros Hnodup Hperm Hsorted.
  apply (StronglySorted_unique_strong newer_first).
  - intros a b Ha Hb Hab Hba.
    apply (distinct_timestamps rows); [exact Hnodup | | |].
    + apply list_elem_of_In in Ha. exact (Permutation_in _ Hperm Ha).
    + apply list_elem_of_In in Hb.
      exact (Permutation_in _ (order_by_posted_desc_perm rows) Hb).
    + unfold newer_first in Hab, Hba. lia.
  - exact Hsorted.
  - apply order_by_posted_desc_sorted.
  - rewrite Hperm. symmetry. apply order_by_posted_desc_perm.
Qed.

(** X8: the pages of ListEntries are consecutive stretches of ten of the
    rows ordered newest first. On an engine that does not fail the
    statement and whose rows have distinct timestamps (so that the order is
    the same for every query, whatever the engine does with ties), for any
    arrangement of the rows newest first, the entries of pages 1 to n, page
    after page, are its first 10 n rows; once 10 n reaches the number of
    rows, the pages together are that arrangement, and so hold every row of
    the table exactly once. *)
Theorem ListEntries_pages_partition :
  forall (pg : Pg) (n : nat) (sorted : list Entry),
    hd None (faults pg) = None ->
    Z.of_nat n <= 922337203685477581 ->
    NoDup (map Posted (table pg)) ->
    Permutation sorted (table pg) ->
    StronglySorted newer_first sorted ->
    let pages :=
      concat (map (fun p => elems (fst (snd (EntryRepo.ListEntries pg (Z.of_nat p)))))
                (seq 1 n)) in
    pages = firstn (10 * n) sorted /\
    ((length (table pg) <= 10 * n)%nat ->
     pages = sorted /\ Permutation pages (table pg)).
Proof.
  intros pg n sorted Hfault Hn Hdistinct Hperm Hsorted pages.
  rewrite (order_by_posted_desc_unique (table pg) sorted Hdistinct Hperm Hsorted).
  assert (Hpages : pages = firstn (10 * n) (order_by_posted_desc (table pg))).
  { subst pages. induction n as [| n IH]; [reflexivity |].
    rewrite seq_S, map_app, concat_app, IH by lia.
    cbn [map concat Nat.add]. rewrite app_nil_r.
    destruct (ListEntries_page_on_pg pg (S n) Hfault) as (_ & _ & ->); [lia | lia |].
    replace (S n - 1)%nat with n by lia.
    replace (10 * S n)%nat with (10 * n + 10)%nat by lia.
    symmetry. apply firstn_add_skipn. }
  split; [exact Hpages |].
  intros Hall.
  assert (Hwhole : pages = order_by_posted_desc (table pg)).
  { rewrite Hpages. apply firstn_all2.
    rewrite (Permutation_length (order_by_posted_desc_perm (table pg))). exact Hall. }
  split; [exact Hwhole |].
  rewrite Hwhole. apply order_by_posted_desc_perm.
Qed.

(** The twelve sample entries on two pages, newest first. *)
Lemma ListEntries_pages_partition_witness :
  concat (map (fun p => elems (fst (snd (EntryRepo.ListEntries sample_pg (Z.of_nat p)))))
            (seq 1 2))
  = map sample_entry (rev (seq 1 12)) /\
  Permutation
    (concat (map (fun p => elems (fst (snd (EntryRepo.ListEntries sample_pg (Z.of_nat p)))))
               (seq 1 2)))
    (table sample_pg).
Proof.
  destruct (ListEntries_pages_partition sample_pg 2 (map sample_entry (rev (seq 1 12))))
    as [_ Hwhole].
  - reflexivity.
  - lia.
  - refine (bool_decide_unpack (NoDup (map Posted (table sample_pg))) _).
    vm_compute. exact I.
  - rewrite map_rev. apply Permutation_sym, Permutation_rev.
  - refine (bool_decide_unpack
              (StronglySorted newer_first (map sample_entry (rev (seq 1 12)))) _).
    vm_compute. exact I.
  - apply Hwhole. vm_compute. lia.
Defined.

Lemma pageCount_exact (totalEntries : Z) :
  0 <= totalEntries < 90071992547409930 ->
  ListHandler.pageCount totalEntries = totalEntries / 10.
Proof.
  intros Htotal.
  assert (Hq : 0 <= totalEntries / 10 <= 2 ^ 53).
  { split; [apply Z.div_pos; lia |].
    apply Z.lt_succ_r, Z.div_lt_upper_bound; lia. }
  unfold ListHandler.pageCount, GoInt.div, MaxEntriesPerPage.
  rewrite Z.quot_div_nonneg by lia.
  rewrite wrap_small by (unfold GoInt.minInt, GoInt.maxInt; lia).
  apply int_of_Ceil_float64_exact; exact Hq.
Qed.



(** ** What the handlers leave as it was *)

Section ListHandlerOnEngine.
Variable Quote : string -> string.
Variable Template : Type.
Variable templateText : string.
Variable template_Parse : string -> Template + error.
Variable ExecuteTemplate : Template -> TemplateData -> list string * option error.

Lemma serve_page_reads_only (t : Template) (page : Z) (pg : Pg)
    (log : list string) (w : ResponseWriter) :
  let pg' := fst (fst (fst (ListHandler.serve_page ExecuteTemplate t page pg log w))) in
  same_rows pg pg' /\ reads_at_most_twice (executed pg) (executed pg').
Proof.
  cbv zeta. unfold ListHandler.serve_page.
  rewrite ListEntries_on_pg.
  set (offset := EntryRepo.ListEntries_offset page).
  assert (Hone : forall (lg : list string) (w' : ResponseWriter) (c : completion),
             let pg1 := fst (pg_receive pg (SQuery (SelectEntries 10 offset))) in
             same_rows pg (fst (fst (fst (pg1, lg, w', c)))) /\
             reads_at_most_twice (executed pg) (executed (fst (fst (fst (pg1, lg, w', c)))))).
  { intros lg w' c. cbn. split; [repeat split |].
    right. exists offset. left. reflexivity. }
  assert (Htwo : forall (lg : list string) (w' : ResponseWriter) (c : completion),
             let pg2 := fst (pg_receive
                               (fst (pg_receive pg (SQuery (SelectEntries 10 offset))))
                               (SQueryRow SelectCount)) in
             same_rows pg (fst (fst (fst (pg2, lg, w', c)))) /\
             reads_at_most_twice (executed pg) (executed (fst (fst (fst (pg2, lg, w', c)))))).
  { intros lg w' c. cbn. split; [repeat split |].
    right. exists offset. right. rewrite <- app_assoc. reflexivity. }
  destruct (hd None (faults pg)) as [err |]; [apply Hone |].
  destruct (offset <? 0); [apply Hone |].
  rewrite CountEntries_on_pg.
  destruct (hd None (faults (fst (pg_receive pg _)))) as [err |]; [apply Htwo |].
  destruct (ListHandler.templateData _ _ _) as [data |]; [| apply Htwo].
  destruct (ExecuteTemplate t data) as [chunks [err |]]; apply Htwo.
Qed.

(** X10: the list handler only reads. Whatever the request and whatever
    fails, a run on the reference engine leaves the rows, the id sequence
    and the clock as they were, and sends nothing but the page query,
    followed or not by the count: never an insert, never a third
    statement. *)
Theorem ListHandler_reads_only :
  forall (pg : Pg) (log : list string) (w : ResponseWriter) (r : Request),
    let pg' :=
      fst (fst (fst (ListHandler.ServeHTTP Quote templateText template_Parse
                       ExecuteTemplate pg log w r))) in
    same_rows pg pg' /\ reads_at_most_twice (executed pg) (executed pg').
Proof.
  intros pg log w r. cbv zeta.
  assert (Hnone : forall (lg : list string) (w' : ResponseWriter) (c : completion),
             same_rows pg (fst (fst (fst (pg, lg, w', c)))) /\
             reads_at_most_twice (executed pg) (executed (fst (fst (fst (pg, lg, w', c)))))).
  { intros lg w' c. cbn. split; [repeat split | left; reflexivity]. }
  unfold ListHandler.ServeHTTP.
  destruct (template_Parse templateText) as [t | err]; [| apply Hnone].
  cbv zeta.
  destruct (if String.eqb (TrimSpace (FormValue r "page")) "" then (1, None)
            else Atoi Quote (TrimSpace (FormValue r "page"))) as [page [err |]];
    [apply Hnone |].
  destruct (page <? 1); [apply Hnone |].
  apply serve_page_reads_only.
Qed.

End ListHandlerOnEngine.

(** ** Trimming, and what the form handler stores *)

Lemma strip_prefix_extend (p : list ascii) :
  forall u u' v : list ascii,
    strip_prefix p u = Some u' -> strip_prefix p (u ++ v) = Some (u' ++ v).
Proof.
  induction p as [| a p IH]; intros u u' v; cbn [strip_prefix].
  - intros Heq. injection Heq as <-. reflexivity.
  - destruct u as [| b u]; [discriminate |]. cbn [app].
    destruct (Ascii.eqb a b); [apply IH | discriminate].
Qed.

Lemma strip_prefix_shorter (p : list ascii) :
  forall u u' : list ascii,
    p <> [] -> strip_prefix p u = Some u' -> (length u' < length u)%nat.
Proof.
  induction p as [| a p IH]; intros u u' Hne; [congruence |].
  cbn [strip_prefix]. destruct u as [| b u]; [discriminate |].
  destruct (Ascii.eqb a b); [| discriminate].
  destruct p as [| a' p].
  - cbn [strip_prefix]. intros Heq. injection Heq as <-. cbn. lia.
  - intros Heq. apply IH in Heq; [cbn; lia | discriminate].
Qed.

Lemma strip_prefix_is_suffix (p : list ascii) :
  forall u u' : list ascii,
    strip_prefix p u = Some u' -> exists q, u = q ++ u'.
Proof.
  induction p as [| a p IH]; intros u u'; cbn [strip_prefix].
  - intros Heq. injection Heq as <-. exists []. reflexivity.
  - destruct u as [| b u]; [discriminate |].
    destruct (Ascii.eqb a b); [| discriminate].
    intros Heq. destruct (IH _ _ Heq) as [q ->]. exists (b :: q). reflexivity.
Qed.

Lemma strip_one_extend (encodings : list (list ascii)) (u v : list ascii) :
  strip_one encodings (u ++ v) = None -> strip_one encodings u = None.
Proof.
  induction encodings as [| p rest IH]; cbn [strip_one]; [reflexivity |].
  destruct (strip_prefix p u) as [u' |] eqn:Hu.
  - rewrite (strip_prefix_extend p u u' v Hu). discriminate.
  - destruct (strip_prefix p (u ++ v)); [discriminate | exact IH].
Qed.

Lemma strip_one_shorter (encodings : list (list ascii)) (u u' : list ascii) :
  List.Forall (fun p => p <> []) encodings ->
  strip_one encodings u = Some u' ->
  (length u' < length u)%nat /\ exists q, u = q ++ u'.
Proof.
  intros Hne. induction Hne as [| p rest Hp Hrest IH]; cbn [strip_one]; [discriminate |].
  destruct (strip_prefix p u) as [u1 |] eqn:Hu; [| exact IH].
  intros Heq. injection Heq as <-. split.
  - apply (strip_prefix_shorter p); assumption.
  - apply (strip_prefix_is_suffix p). exact Hu.
Qed.

Lemma strip_all_unchanged (fuel : nat) (encodings : list (list ascii)) (s : list ascii) :
  strip_one encodings s = None -> strip_all fuel encodings s = s.
Proof. intros Hs. destruct fuel; cbn [strip_all]; [| rewrite Hs]; reflexivity. Qed.

Lemma strip_all_settles (encodings : list (list ascii)) :
  List.Forall (fun p => p <> []) encodings ->
  forall (fuel : nat) (s : list ascii),
    (length s <= fuel)%nat ->
    strip_one encodings (strip_all fuel encodings s) = None /\
    exists q, s = q ++ strip_all fuel encodings s.
Proof.
  intros Hne. induction fuel as [| fuel IH]; intros s Hlen; cbn [strip_all].
  - destruct s; [| cbn in Hlen; lia]. split; [| exists []; reflexivity].
    clear -Hne. induction Hne as [| p rest Hp _ IH]; cbn [strip_one]; [reflexivity |].
    destruct p; [congruence | exact IH].
  - destruct (strip_one encodings s) as [s' |] eqn:Hs.
    + destruct (strip_one_shorter _ _ _ Hne Hs) as [Hshort [q ->]].
      destruct (IH s' ltac:(lia)) as [Hclean [q' Hq']].
      split; [exact Hclean |].
      exists (q ++ q'). rewrite <- app_assoc, <- Hq'. reflexivity.
    + split; [exact Hs | exists []; reflexivity].
Qed.

Lemma White_Space_encodings_nonempty :
  List.Forall (fun p => p <> []) (map EncodeRune White_Space) /\
  List.Forall (fun p => p <> []) (map (fun r => rev (EncodeRune r)) White_Space).
Proof. split; vm_compute; repeat constructor; discriminate. Qed.

(** Trimming a trimmed string changes nothing. *)
Lemma TrimSpace_idempotent (s : string) : TrimSpace (TrimSpace s) = TrimSpace s.
Proof.
  destruct White_Space_encodings_nonempty as [Hleft Hright].
  unfold TrimSpace. rewrite list_ascii_of_string_of_list_ascii. f_equal.
  set (t := TrimLeftSpace (list_ascii_of_string s)).
  assert (Ht : strip_one (map EncodeRune White_Space) t = None).
  { apply (strip_all_settles _ Hleft). lia. }
  destruct (strip_all_settles _ Hright (length t) (rev t) ltac:(rewrite length_rev; lia))
    as [Hclean [q Hq]].
  set (u := TrimRightSpace t).
  assert (Hu : rev u = strip_all (length t)
                         (map (fun r => rev (EncodeRune r)) White_Space) (rev t)).
  { unfold u, TrimRightSpace. apply rev_involutive. }
  assert (Hprefix : t = u ++ rev q).
  { rewrite <- (rev_involutive t), Hq, rev_app_distr, <- Hu, rev_involutive.
    reflexivity. }
  assert (Hleft_u : TrimLeftSpace u = u).
  { apply strip_all_unchanged. apply (strip_one_extend _ u (rev q)).
    rewrite <- Hprefix. exact Ht. }
  rewrite Hleft_u. unfold TrimRightSpace at 1.
  rewrite strip_all_unchanged by (rewrite Hu; exact Hclean).
  apply rev_involutive.
Qed.

(** X11: the form handler keeps the table well formed and only ever adds
    to its end. Whatever the request and whatever fails, when every stored
    entry has a name, an email and a message that are non-empty and free
    of surrounding white space, so has every entry after the run; the old
    rows are all still there, unchanged and in place, followed by at most
    one new row. *)
Theorem FormHandler_keeps_table_well_formed :
  forall (pg : Pg) (w : ResponseWriter) (r : Request),
    List.Forall well_formed (table pg) ->
    let pg' := fst (FormHandler.ServeHTTP pg w r) in
    List.Forall well_formed (table pg') /\
    exists added : list Entry,
      table pg' = table pg ++ added /\ (length added <= 1)%nat.
Proof.
  intros pg w r Hwf. cbv zeta.
  assert (Hsame : List.Forall well_formed (table pg) /\
                  exists added : list Entry,
                    table pg = table pg ++ added /\ (length added <= 1)%nat).
  { split; [exact Hwf |]. exists []. rewrite app_nil_r. split; [reflexivity | cbn; lia]. }
  unfold FormHandler.ServeHTTP. cbv zeta.
  destruct (String.eqb (TrimSpace (PostFormValue r "name")) "") eqn:Hname;
    [exact Hsame |].
  destruct (String.eqb (TrimSpace (PostFormValue r "email")) "") eqn:Hemail;
    [exact Hsame |].
  destruct (String.eqb (TrimSpace (PostFormValue r "message")) "") eqn:Hmessage;
    [exact Hsame |].
  cbn [orb]. rewrite AddEntry_on_pg.
  destruct (hd None (faults pg)) as [err |]; cbn [fst table pg_receive].
  - exact Hsame.
  - apply String.eqb_neq in Hname, Hemail, Hmessage.
    split.
    + apply List.Forall_app. split; [exact Hwf |].
      constructor; [| constructor].
      unfold well_formed, trimmed. cbn [Name Email Message].
      rewrite !TrimSpace_idempotent. repeat split; assumption.
    + eexists. split; [reflexivity | cbn; lia].
Qed.

(** The sample table is well formed, and stays so after a submission
    padded with blanks. *)
Lemma FormHandler_keeps_table_well_formed_witness :
  let pg' :=
    fst (FormHandler.ServeHTTP sample_pg NewWriter
           (post_request "  Ann  " " ann@example.org" "hi ")) in
  List.Forall well_formed (table pg') /\
  exists added : list Entry,
    table pg' = table sample_pg ++ added /\ (length added <= 1)%nat.
Proof.
  apply (FormHandler_keeps_table_well_formed sample_pg NewWriter
           (post_request "  Ann  " " ann@example.org" "hi ")).
  unfold sample_pg, table. cbn [map seq].
  repeat constructor; try (vm_compute; discriminate); vm_compute; reflexivity.
Defined.

(** ** The page count beyond the exact range of binary64 *)

Lemma shr_1_halves (mrs : shr_record) :
  0 <= shr_m mrs -> shr_m (shr_1 mrs) = shr_m mrs / 2.
Proof.
  intros Hm. rewrite <- Z.div2_div.
  destruct mrs as [m r s]. cbn [shr_m] in *.
  destruct m as [| [p | p |] | p]; try reflexivity; lia.
Qed.

Lemma iter_shr_1_divides (n : positive) :
  forall mrs : shr_record,
    0 <= shr_m mrs ->
    shr_m (SpecFloat.iter_pos shr_1 n mrs) = shr_m mrs / 2 ^ Z.pos n.
Proof.
  induction n as [n IH | n IH |]; intros mrs Hm; cbn [SpecFloat.iter_pos].
  - assert (H1 : 0 <= shr_m (shr_1 mrs))
      by (rewrite shr_1_halves by exact Hm; apply Z.div_pos; lia).
    assert (H2 : 0 <= shr_m (SpecFloat.iter_pos shr_1 n (shr_1 mrs)))
      by (rewrite IH by exact H1; apply Z.div_pos; lia).
    rewrite IH, IH, shr_1_halves by assumption.
    rewrite !Z.div_div by lia.
    f_equal. rewrite (Pos2Z.inj_xI n).
    replace (2 * Z.pos n + 1) with (1 + Z.pos n + Z.pos n) by lia.
    rewrite !Z.pow_add_r by lia. change (2 ^ 1) with 2. lia.
  - assert (H1 : 0 <= shr_m (SpecFloat.iter_pos shr_1 n mrs))
      by (rewrite IH by exact Hm; apply Z.div_pos; lia).
    rewrite IH, IH by assumption.
    rewrite Z.div_div by lia.
    f_equal. rewrite (Pos2Z.inj_xO n).
    replace (2 * Z.pos n) with (Z.pos n + Z.pos n) by lia.
    rewrite Z.pow_add_r by lia. reflexivity.
  - apply shr_1_halves. exact Hm.
Qed.

Lemma digits2_pos_unique (q : positive) (n : Z) :
  2 ^ (n - 1) <= Z.pos q < 2 ^ n -> Z.pos (digits2_pos q) = n.
Proof.
  intros Hq. pose proof (digits2_pos_bounds q) as Hb.
  destruct (Z.lt_trichotomy (Z.pos (digits2_pos q)) n) as [Hlt | [Heq | Hgt]];
    [| exact Heq |]; exfalso.
  - assert (2 ^ Z.pos (digits2_pos q) <= 2 ^ (n - 1))
      by (apply Z.pow_le_mono_r; lia).
    lia.
  - assert (0 <= n).
    { destruct (Z_lt_le_dec n 0) as [Hneg | Hpos]; [| exact Hpos].
      rewrite (Z.pow_neg_r 2 n Hneg) in Hq. lia. }
    assert (2 ^ n <= 2 ^ (Z.pos (digits2_pos q) - 1))
      by (apply Z.pow_le_mono_r; lia).
    lia.
Qed.

Lemma round_nearest_even_step (m : Z) (l : location) :
  round_nearest_even m l = m \/ round_nearest_even m l = m + 1.
Proof.
  destruct l as [| []]; cbn [round_nearest_even]; auto.
  destruct (Z.even m); auto.
Qed.

(** An integer of more than 53 bits becomes one of the two neighbouring
    multiples of the power of two that its excess bits span. *)
Lemma float64_of_int_rounded (p k : positive) :
  Z.pos (digits2_pos p) = 53 + Z.pos k -> Z.pos k <= 900 ->
  exists (m : positive) (e : Z),
    float64_of_int (Z.pos p) = S754_finite false m e /\
    0 <= e /\
    (Z.pos m * 2 ^ e = Z.pos p / 2 ^ Z.pos k * 2 ^ Z.pos k \/
     Z.pos m * 2 ^ e = (Z.pos p / 2 ^ Z.pos k + 1) * 2 ^ Z.pos k).
Proof.
  intros Hd Hk.
  pose proof (digits2_pos_bounds p) as Hb. rewrite Hd in Hb.
  replace (53 + Z.pos k - 1) with (52 + Z.pos k) in Hb by lia.
  rewrite !Z.pow_add_r in Hb by lia.
  assert (Hpow : 0 < 2 ^ Z.pos k) by (apply Z.pow_pos_nonneg; lia).
  assert (Hm1 : 2 ^ 52 <= Z.pos p / 2 ^ Z.pos k < 2 ^ 53).
  { split.
    - apply Z.div_le_lower_bound; lia.
    - apply Z.div_lt_upper_bound; lia. }
  unfold float64_of_int, binary_normalize, binary_round.
  replace (fexp 53 1024 (Z.pos (digits2_pos p) + 0)) with (Z.pos k)
    by (unfold fexp, emin; lia).
  change (shl_align p 0 (Z.pos k)) with (p, 0). cbv beta iota.
  unfold binary_round_aux.
  assert (Hfirst : shr_fexp 53 1024 (Z.pos p) 0 loc_Exact
                   = (SpecFloat.iter_pos shr_1 k
                        {| shr_m := Z.pos p; shr_r := false; shr_s := false |},
                      Z.pos k)).
  { unfold shr_fexp, Zdigits2.
    replace (fexp 53 1024 (Z.pos (digits2_pos p) + 0) - 0) with (Z.pos k)
      by (unfold fexp, emin; lia).
    reflexivity. }
  rewrite Hfirst. clear Hfirst.
  set (mrs := SpecFloat.iter_pos shr_1 k _).
  assert (Hmrs : shr_m mrs = Z.pos p / 2 ^ Z.pos k).
  { unfold mrs. rewrite iter_shr_1_divides by (cbn; lia). reflexivity. }
  destruct (round_nearest_even_step (shr_m mrs) (loc_of_shr_record mrs)) as [Hr | Hr];
    rewrite Hr, Hmrs; clear Hr.
  - (* rounded down: the mantissa has 53 bits *)
    destruct (Z.pos p / 2 ^ Z.pos k) as [| m1 | m1] eqn:Hq; [lia | | lia].
    unfold shr_fexp, Zdigits2.
    rewrite (digits2_pos_unique m1 53) by lia.
    replace (fexp 53 1024 (53 + Z.pos k) - Z.pos k) with 0
      by (unfold fexp, emin; lia).
    cbn [shr shr_record_of_loc shr_m].
    replace (Z.pos k <=? 1024 - 53) with true by (symmetry; apply Z.leb_le; lia).
    exists m1, (Z.pos k). split; [reflexivity |]. split; [lia |]. left. reflexivity.
  - destruct (Z.eq_dec (Z.pos p / 2 ^ Z.pos k + 1) (2 ^ 53)) as [Htop | Hbelow].
    + (* rounded up to 2 ^ 53: one more bit is shifted out *)
      rewrite Htop. change (2 ^ 53) with (Z.pos (2 ^ 53)%positive).
      unfold shr_fexp, Zdigits2.
      replace (fexp 53 1024 (Z.pos (digits2_pos (2 ^ 53)) + Z.pos k) - Z.pos k) with 1
        by (change (Z.pos (digits2_pos (2 ^ 53))) with 54; unfold fexp, emin; lia).
      cbn [shr shr_record_of_loc SpecFloat.iter_pos].
      change (shr_m (shr_1 {| shr_m := Z.pos (2 ^ 53); shr_r := false; shr_s := false |}))
        with (Z.pos (2 ^ 52)%positive).
      cbv iota beta.
      replace (Z.pos k + 1 <=? 1024 - 53) with true by (symmetry; apply Z.leb_le; lia).
      exists (2 ^ 52)%positive, (Z.pos k + 1). split; [reflexivity |].
      split; [lia |]. right.
      change (Z.pos (2 ^ 53)%positive) with (2 ^ 53).
      rewrite Z.pow_add_r by lia. change (2 ^ 53) with (2 ^ 52 * 2 ^ 1). lia.
    + destruct (Z.pos p / 2 ^ Z.pos k + 1) as [| m2 | m2] eqn:Hq; [lia | | lia].
      unfold shr_fexp, Zdigits2.
      rewrite (digits2_pos_unique m2 53) by lia.
      replace (fexp 53 1024 (53 + Z.pos k) - Z.pos k) with 0
        by (unfold fexp, emin; lia).
      cbn [shr shr_record_of_loc shr_m].
      replace (Z.pos k <=? 1024 - 53) with true by (symmetry; apply Z.leb_le; lia).
      exists m2, (Z.pos k). split; [reflexivity |]. split; [lia |]. right. reflexivity.
Qed.

Lemma pageCount_rounding (totalEntries : Z) :
  0 <= totalEntries <= GoInt.maxInt ->
  0 <= ListHandler.pageCount totalEntries /\
  totalEntries / 10 - 128 <= ListHandler.pageCount totalEntries
    <= totalEntries / 10 + 128.
Proof.
  intros Htotal. unfold GoInt.maxInt in Htotal.
  assert (Hq : 0 <= totalEntries / 10 < 2 ^ 60).
  { split; [apply Z.div_pos; lia |]. apply Z.div_lt_upper_bound; lia. }
  unfold ListHandler.pageCount, GoInt.div, MaxEntriesPerPage.
    rewrite Z.quot_div_nonneg by lia.
    rewrite wrap_small by (unfold GoInt.minInt, GoInt.maxInt; lia).
    destruct (Z_le_gt_dec (totalEntries / 10) (2 ^ 53)) as [Hexact | Hlarge].
    - rewrite int_of_Ceil_float64_exact by lia. lia.
    - destruct (totalEntries / 10) as [| p | p] eqn:Hp; [lia | | lia].
      pose proof (digits2_pos_bounds p) as Hb.
      assert (Hd : 54 <= Z.pos (digits2_pos p) <= 60).
      { split.
        - destruct (Z_lt_le_dec (Z.pos (digits2_pos p)) 54) as [Hlow | Hok]; [| exact Hok].
          assert (2 ^ Z.pos (digits2_pos p) <= 2 ^ 53)
            by (apply Z.pow_le_mono_r; lia).
          lia.
        - destruct (Z_lt_le_dec 60 (Z.pos (digits2_pos p))) as [Hhigh | Hok]; [| lia].
          assert (2 ^ 60 <= 2 ^ (Z.pos (digits2_pos p) - 1))
            by (apply Z.pow_le_mono_r; lia).
          lia. }
      set (k := Z.to_pos (Z.pos (digits2_pos p) - 53)).
      assert (Hk : Z.pos (digits2_pos p) = 53 + Z.pos k) by (unfold k; lia).
      destruct (float64_of_int_rounded p k Hk ltac:(lia)) as (m & e & Hfloat & He & Hval).
      rewrite Hfloat. cbn [math_Ceil].
      replace (0 <=? e) with true by (symmetry; apply Z.leb_le; exact He).
      cbn [int_of_float64].
      replace (0 <=? e) with true by (symmetry; apply Z.leb_le; exact He).
      assert (Hpow : 0 < 2 ^ Z.pos k <= 128).
      { split; [apply Z.pow_pos_nonneg; lia |].
        change 128 with (2 ^ 7). apply Z.pow_le_mono_r; lia. }
      pose proof (Z.div_mod (Z.pos p) (2 ^ Z.pos k) ltac:(lia)) as Hdiv.
      pose proof (Z.mod_pos_bound (Z.pos p) (2 ^ Z.pos k) ltac:(lia)) as Hmod.
      assert (Hnear : Z.pos p - 128 <= Z.pos m * 2 ^ e <= Z.pos p + 128).
      { destruct Hval as [-> | ->]; nia. }
      replace ((GoInt.minInt <=? Z.pos m * 2 ^ e) && (Z.pos m * 2 ^ e <=? GoInt.maxInt))
        with true
        by (symmetry; apply andb_true_intro; unfold GoInt.minInt, GoInt.maxInt;
            split; apply Z.leb_le; lia).
      lia.
Qed.

Lemma templateData_fails_iff (entries : slice Entry) (totalEntries page : Z) :
  0 <= totalEntries <= GoInt.maxInt ->
  ListHandler.templateData entries totalEntries page = None
  <-> 351843720888330 <= totalEntries.
Proof.
  intros Htotal. unfold ListHandler.templateData. cbv zeta.
  destruct (Z_lt_le_dec totalEntries 351843720888330) as [Hsmall | Hlarge].
  - assert (0 <= totalEntries / 10 < 35184372088833)
      by (split; [apply Z.div_pos | apply Z.div_lt_upper_bound]; lia).
    rewrite pageCount_exact by lia.
    rewrite pageNumbers_ascending by lia.
    split; [discriminate | lia].
  - assert (Hq : 35184372088833 <= totalEntries / 10)
      by (apply Z.div_le_lower_bound; lia).
    rewrite pageNumbers_out_of_range; [tauto |].
    right.
    destruct (Z_lt_le_dec totalEntries 90071992547409930) as [Hexact | Hrounded].
    + rewrite pageCount_exact by lia. lia.
    + destruct (pageCount_rounding totalEntries Htotal) as [_ Hnear].
      assert (9007199254740993 <= totalEntries / 10)
        by (apply Z.div_le_lower_bound; lia).
      lia.
Qed.

(** X12: for every non-negative total entry count that an [int] can hold,
    the page count the list handler computes is never negative and lies
    within 128 of total / 10 (beyond 2 ^ 53 the conversion to float64
    rounds the quotient, to 53 significant bits); hence [make] is never
    given a negative capacity, and it refuses the capacity, so that no
    template data is built, exactly when the total is 351843720888330 or
    more. *)
Theorem pageCount_close_to_quotient :
  forall totalEntries : Z,
    0 <= totalEntries <= GoInt.maxInt ->
    0 <= ListHandler.pageCount totalEntries /\
    totalEntries / 10 - 128 <= ListHandler.pageCount totalEntries
      <= totalEntries / 10 + 128 /\
    forall (entries : slice Entry) (page : Z),
      ListHandler.templateData entries totalEntries page = None
      <-> 351843720888330 <= totalEntries.
Proof.
  intros totalEntries Htotal.
  destruct (pageCount_rounding totalEntries Htotal) as [Hnonneg Hnear].
  split; [exact Hnonneg |]. split; [exact Hnear |].
  intros entries page. apply templateData_fails_iff. exact Htotal.
Qed.

(** At 90071992547409930 entries the page count is one below the quotient
    and no template data is built; at 25 entries the template data is
    built. *)
Lemma pageCount_close_to_quotient_witness :
  (0 <= ListHandler.pageCount 90071992547409930 /\
   90071992547409930 / 10 - 128 <= ListHandler.pageCount 90071992547409930
     <= 90071992547409930 / 10 + 128 /\
   ListHandler.templateData nil_slice 90071992547409930 1 = None) /\
  ListHandler.templateData nil_slice 25 1 <> None.
Proof.
  split.
  - destruct (pageCount_close_to_quotient 90071992547409930) as (Hnonneg & Hnear & Hdata).
    + unfold GoInt.maxInt. lia.
    + split; [exact Hnonneg |]. split; [exact Hnear |]. apply Hdata. lia.
  - destruct (pageCount_close_to_quotient 25) as (_ & _ & Hdata).
    + unfold GoInt.maxInt. lia.
    + intros Hnone. apply Hdata in Hnone. lia.
Defined.

(** ** Runs on the reference engine *)

Section ListHandlerNeverPanics.
Variable Quote : string -> string.
Variable Template : Type.
Variable templateText : string.
Variable template_Parse : string -> Template + error.
Variable ExecuteTemplate : Template -> TemplateData -> list string * option error.

(** X13: on the reference engine the list handler always returns: no
    request and no failure makes it panic, as long as the table holds fewer
    than 351843720888330 rows, the first count at which [make] refuses the
    capacity of the page numbers. *)
Theorem ListHandler_never_panics :
  forall (pg : Pg) (log : list string) (w : ResponseWriter) (r : Request),
    Z.of_nat (length (table pg)) < 351843720888330 ->
    snd (ListHandler.ServeHTTP Quote templateText template_Parse ExecuteTemplate
           pg log w r)
    = Returned.
Proof.
  intros pg log w r Hrows.
  unfold ListHandler.ServeHTTP.
  destruct (template_Parse templateText) as [t | err]; [| reflexivity].
  cbv zeta.
  destruct (if String.eqb (TrimSpace (FormValue r "page")) "" then (1, None)
            else Atoi Quote (TrimSpace (FormValue r "page"))) as [page [err |]];
    [reflexivity |].
  destruct (page <? 1); [reflexivity |].
  unfold ListHandler.serve_page.
  rewrite ListEntries_on_pg.
  destruct (hd None (faults pg)) as [err |]; [reflexivity |].
  destruct (EntryRepo.ListEntries_offset page <? 0); [reflexivity |].
  rewrite CountEntries_on_pg.
  destruct (hd None (faults (fst (pg_receive pg _)))) as [err |]; [reflexivity |].
  cbn [pg_receive fst table].
  destruct (ListHandler.templateData _ _ page) as [data |] eqn:Hdata.
  - destruct (ExecuteTemplate t data) as [chunks [err |]]; reflexivity.
  - exfalso. apply templateData_fails_iff in Hdata; [lia |].
    unfold GoInt.maxInt. lia.
Qed.

End ListHandlerNeverPanics.

(** The sample engine, asked for page 2 and asked with a broken page. *)
Lemma ListHandler_never_panics_witness :
  snd (ListHandler.ServeHTTP sample_Quote "Guestbook" sample_Parse sample_Execute
         sample_pg [] NewWriter (get_request (<["page" := ["2"]]> ∅)))
  = Returned /\
  snd (ListHandler.ServeHTTP sample_Quote "Guestbook" sample_Parse failing_Execute
         count_failing_pg [] NewWriter (get_request (<["page" := ["x"]]> ∅)))
  = Returned.
Proof.
  split.
  - apply (ListHandler_never_panics sample_Quote string "Guestbook" sample_Parse
             sample_Execute sample_pg [] NewWriter
             (get_request (<["page" := ["2"]]> ∅))).
    vm_compute. reflexivity.
  - apply (ListHandler_never_panics sample_Quote string "Guestbook" sample_Parse
             failing_Execute count_failing_pg [] NewWriter
             (get_request (<["page" := ["x"]]> ∅))).
    vm_compute. reflexivity.
Defined.


